(** * premier-league-api: the application entry point and the helper layer

    A shallow embedding of [src/server.js] (the Express application object
    and the helpers for credentials, tokens, the Redis cache, the request
    user and the response envelopes) together with the properties its
    specification states about them.

    The helpers are thin wrappers around third-party packages (bcrypt,
    jsonwebtoken, redis, express, mongoose).  Each package is embedded by a
    small operational model of the calls the helpers make; the
    cryptographic primitives, the global middleware, the router of
    [./routes], the models of the document store and the regular
    expression engine are parameters, so that every theorem holds for
    whatever these compute. *)

From Stdlib Require Import ZArith String Ascii List Bool Lia DecimalString.
From stdpp Require Import base option list gmap strings.

Set Warnings "-register-all".
Local Open Scope Z_scope.
Local Open Scope string_scope.

(** ** JavaScript values and outcomes *)

(** The JSON-serializable JavaScript values.  Objects keep their keys in
    insertion order, as [JSON.stringify] prints them in that order.
    Numbers are the integers. *)
Inductive json : Type :=
  | JNull
  | JBool (b : bool)
  | JNum (n : Z)
  | JStr (s : string)
  | JArr (l : list json)
  | JObj (o : list (string * json)).

(** The errors the helpers and their libraries raise. *)
Inductive js_error : Type :=
  | Error (message : string)
  | TypeError (message : string)
  | SyntaxError (message : string)
  | JsonWebTokenError (message : string)
  | NotBeforeError (message : string) (date : Z)
  | TokenExpiredError (message : string) (expiredAt : Z).

(** A call either returns a value or throws. *)
Inductive completion (A : Type) : Type :=
  | Return (a : A)
  | Throw (e : js_error).
Arguments Return {A} a.
Arguments Throw {A} e.

(** [process.env]: the variables the program reads; each may be unset. *)
Record process_env : Type := {
  NODE_ENV : option string;
  SECRET_KEY : option string;
  PORT : option string
}.

(** ** Objects *)

Module Obj.

(** [o[k]]: [None] stands for [undefined]. *)
Fixpoint get (k : string) (o : list (string * json)) : option json :=
  match o with
  | [] => None
  | (k', v) :: rest => if String.eqb k k' then Some v else get k rest
  end.

(** [o[k] = v]: an existing key keeps its place, a new one goes last. *)
Fixpoint set (k : string) (v : json) (o : list (string * json))
  : list (string * json) :=
  match o with
  | [] => [(k, v)]
  | (k', v') :: rest =>
      if String.eqb k k' then (k, v) :: rest else (k', v') :: set k v rest
  end.

End Obj.

(** ** [JSON.stringify] *)

Module JSON.

Definition dquote : ascii := "034"%char.
Definition backslash : ascii := "092"%char.

Definition hex_digit (n : N) : ascii :=
  ascii_of_N (if (n <? 10)%N then 48 + n else 87 + n)%N.

(** One character of a string literal: the quote, the backslash and the
    control characters are escaped. *)
Definition escape_char (c : ascii) : string :=
  let n := N_of_ascii c in
  if (n =? 34)%N then String backslash (String dquote "")
  else if (n =? 92)%N then String backslash (String backslash "")
  else if (n =? 8)%N then String backslash "b"
  else if (n =? 12)%N then String backslash "f"
  else if (n =? 10)%N then String backslash "n"
  else if (n =? 13)%N then String backslash "r"
  else if (n =? 9)%N then String backslash "t"
  else if (n <? 32)%N then
    String backslash
      (String "u" (String "0" (String "0"
        (String (hex_digit (n / 16)) (String (hex_digit (n mod 16)) "")))))
  else String c "".

Fixpoint escape (s : string) : string :=
  match s with
  | EmptyString => ""
  | String c rest => escape_char c +:+ escape rest
  end.

Definition quote (s : string) : string :=
  String dquote (escape s +:+ String dquote "").

Definition number (n : Z) : string := NilZero.string_of_int (Z.to_int n).

Fixpoint join (sep : string) (parts : list string) : string :=
  match parts with
  | [] => ""
  | [p] => p
  | p :: rest => p +:+ sep +:+ join sep rest
  end.

Fixpoint stringify (j : json) : string :=
  match j with
  | JNull => "null"
  | JBool true => "true"
  | JBool false => "false"
  | JNum n => number n
  | JStr s => quote s
  | JArr l => "[" +:+ join "," (map stringify l) +:+ "]"
  | JObj o =>
      "{" +:+ join "," (map (fun kv => quote (fst kv) +:+ ":" +:+ stringify (snd kv)) o)
      +:+ "}"
  end.

End JSON.

(** ** The Express response object *)

Record response : Type := {
  statusCode : Z;
  headers : list (string * string);
  body : option string
}.

(** A response nothing has been written to. *)
Definition fresh_response : response :=
  {| statusCode := 200; headers := []; body := None |}.

Module Res.

(** [res.status(code)] *)
Definition status (code : Z) (res : response) : response :=
  {| statusCode := code; headers := headers res; body := body res |}.

(** [res.json(obj)]: the object is sent as its JSON text.  (To a [HEAD]
    request the text is not sent: see [json_to] and [on_the_wire]
    below.) *)
Definition json (obj : json) (res : response) : response :=
  {| statusCode := statusCode res;
     headers := ("Content-Type", "application/json; charset=utf-8") :: headers res;
     body := Some (JSON.stringify obj) |}.

End Res.

(** ** Response envelopes *)

(** [error] defaults to the empty string. *)
Definition errorResponse (res : response) (statusCode : Z) (message : json)
    (error : option json) : response :=
  Res.json
    (JObj [("status", JStr "error"); ("message", message);
           ("error", default (JStr "") error)])
    (Res.status statusCode res).

(** [message] defaults to the empty string; a [data] left out is not
    printed. *)
Definition successResponse (res : response) (statusCode : Z)
    (message : option json) (data : option json) : response :=
  Res.json
    (JObj ([("status", JStr "success"); ("message", default (JStr "") message)]
           ++ match data with Some d => [("data", d)] | None => [] end))
    (Res.status statusCode res).

Definition production_message : string :=
  "Your request could not be processed at this time. Kindly try again later.".

Definition serverError (env : process_env) (res : response) (error : json)
    : response :=
  Res.json
    (JObj [("status", JStr "error");
           ("message",
             if bool_decide (NODE_ENV env = Some "production")
             then JStr production_message
             else error)])
    (Res.status 500 res).

(** ** The request object and the request user *)

(** [req.session]: the user stored in it and its other fields. *)
Module Session.
Record t : Type := {
  user : option json;
  data : list (string * json)
}.
End Session.

(** [req]: [user] and [session] are [None] while the property is
    [undefined]; no middleware of [server.js] creates either. *)
Module Request.
Record t : Type := {
  method : string;
  path : string;
  user : option json;
  session : option Session.t
}.
End Request.

Definition with_user (u : option json) (req : Request.t) : Request.t :=
  {| Request.method := Request.method req; Request.path := Request.path req;
     Request.user := u; Request.session := Request.session req |}.

Definition with_session (s : option Session.t) (req : Request.t) : Request.t :=
  {| Request.method := Request.method req; Request.path := Request.path req;
     Request.user := Request.user req; Request.session := s |}.

Definition with_session_user (u : option json) (s : Session.t) : Session.t :=
  {| Session.user := u; Session.data := Session.data s |}.

Definition with_path (p : string) (req : Request.t) : Request.t :=
  {| Request.method := Request.method req; Request.path := p;
     Request.user := Request.user req; Request.session := Request.session req |}.

(** [process.env.NODE_ENV === 'test'] *)
Definition test_mode (env : process_env) : bool :=
  bool_decide (NODE_ENV env = Some "test").

(** Reading [user] off an [undefined] session is a [TypeError]. *)
Definition getRequestUser (env : process_env) (req : Request.t)
    : completion (option json) :=
  if test_mode env then Return (Request.user req)
  else match Request.session req with
       | Some s => Return (Session.user s)
       | None => Throw (TypeError "Cannot read property 'user' of undefined")
       end.

(** The request after the assignment, and the value of the assignment
    expression. *)
Definition setRequestUser (env : process_env) (req : Request.t)
    (userObject : json) : Request.t * completion json :=
  if test_mode env then (with_user (Some userObject) req, Return userObject)
  else match Request.session req with
       | Some s =>
           (with_session (Some (with_session_user (Some userObject) s)) req,
            Return userObject)
       | None =>
           (req, Throw (TypeError "Cannot set property 'user' of undefined"))
       end.

(** [res.json(obj)] on the response to [req]: when the method of the
    request is [HEAD], [res.send] ends the response without the text. *)
Definition json_to (req : Request.t) (obj : json) (res : response) : response :=
  if String.eqb (Request.method req) "HEAD"
  then {| statusCode := statusCode (Res.json obj res);
          headers := headers (Res.json obj res);
          body := None |}
  else Res.json obj res.

(** ** The Express application *)

(** Of [express], the dispatch of a request through the stack of layers
    is modelled; the middleware packages and the router of [./routes] are
    parameters. *)

(** What a handler does with a request: hand it on ([next()]), hand an
    error on ([next(err)]), or end the response. *)
Inductive step : Type :=
  | Next (req : Request.t) (res : response)
  | NextError (err : json) (req : Request.t) (res : response)
  | End (res : response).

Definition handler : Type := Request.t -> response -> step.

(** An entry of a router's stack: which requests it takes, and its handler. *)
Record layer : Type := {
  takes : Request.t -> bool;
  handle : handler
}.

(** A stack is tried in order; a layer that hands the request on lets the
    layers after it see it. *)
Fixpoint run (stack : list layer) (req : Request.t) (res : response) : step :=
  match stack with
  | [] => Next req res
  | l :: rest =>
      if takes l req then
        match handle l req res with
        | Next req' res' => run rest req' res'
        | s => s
        end
      else run rest req res
  end.

(** [str_drop n s]: [s] without its first [n] characters. *)
Fixpoint str_drop (n : nat) (s : string) : string :=
  match n, s with
  | O, _ => s
  | S n', String _ rest => str_drop n' rest
  | S _, EmptyString => ""
  end.

(** [str_take n s]: the first [n] characters of [s]. *)
Fixpoint str_take (n : nat) (s : string) : string :=
  match n, s with
  | S n', String c rest => String c (str_take n' rest)
  | _, _ => ""
  end.

Arguments str_drop : simpl nomatch.
Arguments str_take : simpl nomatch.

(** Express compares paths with its routes without regard to the case of
    the letters A to Z ([case sensitive routing] is off unless an
    application turns it on, and [server.js] does not). *)
Definition lower (c : ascii) : ascii :=
  let n := N_of_ascii c in
  if ((65 <=? n) && (n <=? 90))%N then ascii_of_N (n + 32) else c.

Fixpoint lowercase (s : string) : string :=
  match s with
  | EmptyString => ""
  | String c rest => String (lower c) (lowercase rest)
  end.

(** A path lies under a mount point when, letter case apart, it is the
    mount point or goes on with a slash after it. *)
Definition under (mount path : string) : bool :=
  String.eqb (lowercase path) (lowercase mount)
  || String.prefix (lowercase mount +:+ "/") (lowercase path).

(** The path a router mounted at [mount] sees: what follows the mount
    point, and [/] for the mount point itself.  A slash right after the
    mount point belongs to what is cut off when the path ends there or
    goes on with a second slash. *)
Definition below (mount path : string) : string :=
  match str_drop (String.length mount) path with
  | EmptyString => "/"
  | String "/"%char EmptyString => "/"
  | String "/"%char (String "/"%char rest) => String "/"%char rest
  | rest => rest
  end.

Module App.

(** [app.use(fn)] *)
Definition use (fn : handler) : layer :=
  {| takes := fun _ => true; handle := fn |}.

(** [app.use(mount, router)]: the router sees the path below the mount
    point; a request it hands on, with or without an error, gets its path
    back. *)
Definition use_at (mount : string) (router : list layer) : layer :=
  {| takes := fun req => under mount (Request.path req);
     handle := fun req res =>
       let inner := with_path (below mount (Request.path req)) req in
       match run router inner res with
       | Next req' res' => Next (with_path (Request.path req) req') res'
       | NextError err req' res' =>
           NextError err (with_path (Request.path req) req') res'
       | End res' => End res'
       end |}.

(** The error Express raises for a path that [decodeURIComponent] throws
    on, such as [/%]. *)
Definition decode_failure (path : string) : json :=
  JObj [("message", JStr ("Failed to decode param '" +:+ path +:+ "'"));
        ("status", JNum 400);
        ("statusCode", JNum 400)].

(** [app.all('*', fn)]: every method, every path.  The layer of the path
    ['*'] decodes the path, which is the route's one parameter, before
    [fn] is called; a path that does not decode is handed on as an error,
    and [fn] is not called.  [decodeURIComponent] gives [None] where the
    built-in function throws. *)
Definition all_star (decodeURIComponent : string -> option string)
    (fn : handler) : layer :=
  {| takes := fun _ => true;
     handle := fun req res =>
       match decodeURIComponent (Request.path req) with
       | Some _ => fn req res
       | None => NextError (decode_failure (Request.path req)) req res
       end |}.

(** A route of a router, [router.METHOD(path, fn)], for a path without
    parameters; a route for [GET] takes [HEAD] requests too. *)
Definition route (method : string) (path_matches : string -> bool)
    (fn : handler) : layer :=
  {| takes := fun req =>
       (String.eqb (Request.method req) method
        || (String.eqb (Request.method req) "HEAD" && String.eqb method "GET"))
       && path_matches (Request.path req);
     handle := fn |}.

End App.

Section Application.

(** The built-in [decodeURIComponent]: [None] where it throws. *)
Variable decodeURIComponent : string -> option string.
(** The packages and the module [./routes] that [server.js] imports.  The
    router is given by its stack; what it answers by itself (an [OPTIONS]
    request to the path of one of its routes, say) is a layer of that
    stack. *)
Variable cors : handler.
Variable morgan : string -> handler.
Variable urlencoded : handler.
Variable json_body : handler.
Variable router : list layer.
(** Express's last resort, for a request no layer answered ([None]) or
    an error no layer handled. *)
Variable finalhandler : option json -> Request.t -> response -> response.

(** The handler of [app.all('*', ...)]. *)
Definition methodNotAllowed : handler :=
  fun req res =>
    End (json_to req (JObj [("error", JStr "Method not allowed")])
           (Res.status 405 res)).

(** The middleware every request goes through first. *)
Definition global_middleware (env : process_env) : list layer :=
  [App.use cors]
  ++ (if bool_decide (NODE_ENV env = Some "development")
      then [App.use (morgan "dev")] else [])
  ++ [App.use urlencoded; App.use json_body].

(** The layers [server.js] mounts ahead of the catch-all. *)
Definition registered (env : process_env) : list layer :=
  [App.use cors]
  ++ (if bool_decide (NODE_ENV env = Some "development")
      then [App.use (morgan "dev")] else [])
  ++ [App.use urlencoded; App.use json_body; App.use_at "/api/v1" router].

Definition app (env : process_env) : list layer :=
  registered env ++ [App.all_star decodeURIComponent methodNotAllowed].

(** What of a response Node sends: no body to a [HEAD] request, and none
    with an informational status, with 204 or with 304. *)
Definition on_the_wire (req : Request.t) (res : response) : response :=
  if String.eqb (Request.method req) "HEAD"
     || ((100 <=? statusCode res) && (statusCode res <=? 199))%Z
     || (statusCode res =? 204)%Z
     || (statusCode res =? 304)%Z
  then {| statusCode := statusCode res; headers := headers res; body := None |}
  else res.

(** The response to a request. *)
Definition respond (env : process_env) (req : Request.t) : response :=
  on_the_wire req
    match run (app env) req fresh_response with
    | End res => res
    | Next req' res => finalhandler None req' res
    | NextError err req' res => finalhandler (Some err) req' res
    end.

End Application.

(** ** The Redis client *)

(** The [redis] package and the server behind it are not part of the
    repository; what follows models the three commands the helpers send
    ([SETEX], [DEL], [GET]) with the server's expiry of keys. *)

Module Redis.

(** A stored value and the instant (in milliseconds) it expires at. *)
Record entry : Type := {
  value : string;
  expires_at : Z
}.

(** The shared client with the server behind it: whether the server can
    be reached, the server's clock (in milliseconds) and its keys. *)
Record client : Type := {
  reachable : bool;
  now : Z;
  keys : gmap string entry
}.

(** What a command's callback is called with: an error, or a reply
    ([None] is [null]). *)
Inductive reply : Type :=
  | Failed (error : string)
  | Replied (result : option string).

Definition with_keys (k : gmap string entry) (c : client) : client :=
  {| reachable := reachable c; now := now c; keys := k |}.

(** Time passing on the server. *)
Definition elapse (ms : Z) (c : client) : client :=
  {| reachable := reachable c; now := now c + ms; keys := keys c |}.

Definition unreachable_error : string := "Redis connection failed".

(** [SETEX key seconds value] *)
Definition setex (key : string) (seconds : Z) (v : string) (c : client)
    : client * reply :=
  if negb (reachable c) then (c, Failed unreachable_error)
  else if (seconds <=? 0)%Z then (c, Failed "ERR invalid expire time in setex")
  else (with_keys (<[key := {| value := v; expires_at := now c + 1000 * seconds |}]> (keys c)) c,
        Replied (Some "OK")).

(** [DEL key] *)
Definition del (key : string) (c : client) : client * reply :=
  if negb (reachable c) then (c, Failed unreachable_error)
  else (with_keys (delete key (keys c)) c,
        Replied (Some (if bool_decide (is_Some (keys c !! key)) then "1" else "0"))).

(** [GET key]: an entry past its expiry is gone. *)
Definition get (key : string) (c : client) : reply :=
  if negb (reachable c) then Failed unreachable_error
  else match keys c !! key with
       | Some e => if (now c <? expires_at e)%Z then Replied (Some (value e))
                   else Replied None
       | None => Replied None
       end.

End Redis.

(** The JavaScript value of a reply: [null] or a string. *)
Definition reply_value (r : option string) : json :=
  match r with
  | Some s => JStr s
  | None => JNull
  end.

(** [timeout] defaults to 3600; no callback is passed, so the reply is
    dropped. *)
Definition storeToRedis (redisClient : Redis.client) (key : string)
    (values : json) (timeout : option Z) : Redis.client :=
  fst (Redis.setex key (default 3600 timeout) (JSON.stringify values) redisClient).

Definition removeFromRedis (redisClient : Redis.client) (key : string)
    : Redis.client :=
  fst (Redis.del key redisClient).

(** What the function passed to [redisClient.get] does once the reply is
    in: throw on an error, else call [callback] with the result. *)
Definition getFromRedis {R : Type} (redisClient : Redis.client) (key : string)
    (callback : json -> R) : completion R :=
  match Redis.get key redisClient with
  | Redis.Failed error => Throw (Error error)
  | Redis.Replied result => Return (callback (reply_value result))
  end.

(** ** The document store *)

(** The models [User], [Fixture] and [Team] and the [mongoose] package
    live outside [server.js]: what a model answers to a query depends on
    its schema and on the store behind it.  A model is therefore taken as
    the answers it gives to the two kinds of query the helpers put to it;
    the helpers decide which query is put. *)

(** Equality of JavaScript values is decidable. *)
Definition json_eq_dec : forall a b : json, {a = b} + {a <> b}.
Proof.
  fix IH 1. intros a b.
  decide equality.
  - apply Bool.bool_dec.
  - apply Z.eq_dec.
  - apply String.string_dec.
  - apply (List.list_eq_dec IH).
  - apply List.list_eq_dec. intros [k1 v1] [k2 v2].
    destruct (String.string_dec k1 k2) as [->|Hk]; [|right; congruence].
    destruct (IH v1 v2) as [->|Hv]; [left; reflexivity|right; congruence].
Defined.

#[global] Instance json_eq_decision : EqDecision json := json_eq_dec.

Module Mongoose.

Definition document : Type := list (string * json).

(** A regular expression: its source and its flags. *)
Record RegExp : Type := {
  source : string;
  flags : string
}.

(** A model, by what it answers: to [Model.findOne(conditions)], a
    document or [null], and to a [Model.find()] narrowed by [$or] clauses
    of regular expressions, the documents found.  Either may fail. *)
Record Model : Type := {
  findOne : list (string * json) -> completion (option document);
  find_where_or : list (string * RegExp) -> completion (list document)
}.

(** A query under construction: the model and the [$or] clauses so far. *)
Record Query : Type := {
  model : Model;
  or_clauses : list (string * RegExp)
}.

(** [Model.find()] *)
Definition find (M : Model) : Query :=
  {| model := M; or_clauses := [] |}.

(** [query.or({ [field]: regexp })] *)
Definition or (clause : string * RegExp) (query : Query) : Query :=
  {| model := model query; or_clauses := or_clauses query ++ [clause] |}.

(** Awaiting the query runs it. *)
Definition exec (query : Query) : completion (list document) :=
  find_where_or (model query) (or_clauses query).

End Mongoose.



Definition checkIfTeamExists (Team : Mongoose.Model)
    (keys : list (string * json)) : completion (option Mongoose.document) :=
  Mongoose.findOne Team keys.

Section Matching.

(** [new RegExp(source, flags)] of the engine: the message of the
    [SyntaxError] it throws on a source that is not a pattern, and [None]
    where it accepts the source. *)
Variable syntax_error : string -> string -> option string.

(** The [forEach] over the keys of [fields]: each adds a clause to the
    query, and the first text that is not a pattern ends the loop with
    the engine's error. *)
Fixpoint or_each (fields : list (string * string)) (query : Mongoose.Query)
    : completion Mongoose.Query :=
  match fields with
  | [] => Return query
  | field :: rest =>
      match syntax_error (snd field) "ig" with
      | None =>
          or_each rest
            (Mongoose.or
               (fst field, {| Mongoose.source := snd field; Mongoose.flags := "ig" |})
               query)
      | Some message => Throw (SyntaxError message)
      end
  end.

(** [fields] lists the fields in the order [Object.keys] gives them, each
    with the text searched for; the query is awaited by the caller, which
    runs it. *)
Definition checkIfAnyMatchingRecordExists (Model : Mongoose.Model)
    (fields : list (string * string)) : completion (list Mongoose.document) :=
  match or_each fields (Mongoose.find Model) with
  | Return query => Mongoose.exec query
  | Throw e => Throw e
  end.

End Matching.

(** ** bcrypt *)

(** The [bcrypt] package is not part of the repository.  Its hashes are
    modelled by their format (version, rounds, salt, digest) and
    [compareSync] by what it does with it: re-hash the data under the
    setting the stored hash starts with, and compare.  The cipher itself
    is a parameter. *)

Module Bcrypt.

(** The salt the library draws for a hash: sixteen random bytes, which
    it writes as twenty-two characters. *)
Record drawn_salt : Type := {
  text : string;
  text_length : String.length text = 22%nat
}.

Definition NUL : ascii := "000"%char.

(** The key the cipher is set up with: the data and its terminator, of
    which bcrypt reads at most 72 bytes. *)
Definition key (data : string) : string :=
  str_take 72 (data +:+ String NUL "").

(** The number of rounds is brought into 4..31. *)
Definition clamp (rounds : Z) : Z :=
  if (rounds <? 4)%Z then 4 else if (31 <? rounds)%Z then 31 else rounds.

Definition digit (n : Z) : ascii := ascii_of_N (48 + Z.to_N n).

Definition digit_value (c : ascii) : option Z :=
  let n := N_of_ascii c in
  if ((48 <=? n) && (n <=? 57))%N then Some (Z.of_N n - 48) else None.

Definition two_digits (n : Z) : string :=
  String (digit (n / 10)) (String (digit (n mod 10)) "").

Definition two_digits_value (s : string) : option Z :=
  match s with
  | String d1 (String d0 EmptyString) =>
      match digit_value d1, digit_value d0 with
      | Some a, Some b => Some (10 * a + b)
      | _, _ => None
      end
  | _ => None
  end.

(** [genSalt(rounds)]: version, rounds and salt. *)
Definition genSalt (drawn : drawn_salt) (rounds : Z) : string :=
  "$2b$" +:+ two_digits (clamp rounds) +:+ "$" +:+ text drawn.

(** The version, rounds and salt a salt or a hash starts with. *)
Definition read_setting (s : string) : option (string * Z * string) :=
  let version := str_take 4 s in
  if (String.eqb version "$2a$" || String.eqb version "$2b$"
      || String.eqb version "$2y$")
     && String.eqb (str_take 1 (str_drop 6 s)) "$"
     && (29 <=? String.length s)%nat
  then
    match two_digits_value (str_take 2 (str_drop 4 s)) with
    | Some rounds =>
        if ((4 <=? rounds) && (rounds <=? 31))%Z
        then Some (version, rounds, str_take 22 (str_drop 7 s))
        else None
    | None => None
    end
  else None.

Section Cipher.

(** The expensive key setup and encryption, from the rounds, the salt
    and the key to the digest the hash ends with. *)
Variable digest : Z -> string -> string -> string.

(** Hashing under the setting a salt or an earlier hash starts with. *)
Definition hashpw (data setting : string) : option string :=
  match read_setting setting with
  | Some (version, rounds, salt) =>
      Some (version +:+ two_digits rounds +:+ "$" +:+ salt
            +:+ digest rounds salt (key data))
  | None => None
  end.

(** [bcrypt.hash(data, rounds)]: the value the promise resolves to. *)
Definition hash (drawn : drawn_salt) (data : string) (rounds : Z)
    : completion string :=
  match hashpw data (genSalt drawn rounds) with
  | Some h => Return h
  | None => Throw (Error "Invalid salt. Salt must be in the form of: $Vers$log2(NumRounds)$saltvalue")
  end.

(** [bcrypt.compareSync(data, encrypted)]: the data is hashed under the
    setting of [encrypted] and the two hashes are compared. *)
Definition compareSync (data encrypted : string) : bool :=
  match hashpw data encrypted with
  | Some h => String.eqb h encrypted
  | None => false
  end.

End Cipher.

End Bcrypt.

(** [salt] defaults to 10. *)
Definition hashPassword (digest : Z -> string -> string -> string)
    (drawn : Bcrypt.drawn_salt) (password : string) (salt : option Z)
    : completion string :=
  Bcrypt.hash digest drawn password (default 10 salt).

Definition comparePassword (digest : Z -> string -> string -> string)
    (password existingUserPassword : string) : bool :=
  Bcrypt.compareSync digest password existingUserPassword.

(** ** jsonwebtoken *)

(** The [jsonwebtoken] package is not part of the repository.  [sign] and
    [verify] are modelled on decoded tokens, with the checks [verify] makes
    in its order (signature, not-before, expiry); the signature function
    and the [ms] package are parameters. *)

Module Jwt.

Record header : Type := {
  alg : string;
  typ : option string
}.

(** A token string by its three segments, decoded: header, payload and
    signature.  A string that does not split into three segments that
    decode is [Malformed]. *)
Inductive token : Type :=
  | Malformed (text : string)
  | Compact (h : header) (payload : json) (signature : string).

(** [expiresIn]: a time span as text, or a number of seconds. *)
Inductive span : Type :=
  | Text (s : string)
  | Seconds (n : Z).

(** A claim of a payload; a payload that is no object has none. *)
Definition claim (name : string) (payload : json) : option json :=
  match payload with
  | JObj o => Obj.get name o
  | _ => None
  end.

Definition number_or_absent (v : option json) : bool :=
  match v with
  | None | Some (JNum _) => true
  | Some _ => false
  end.

(** A secret that is unset or empty is no secret. *)
Definition usable (secret : option string) : option string :=
  match secret with
  | Some EmptyString | None => None
  | Some k => Some k
  end.

(** [expiresIn] is to be an integer or a string that is not empty. *)
Definition valid_span (time : span) : bool :=
  match time with
  | Text EmptyString => false
  | _ => true
  end.

Definition hmac_algorithms : list string := ["HS256"; "HS384"; "HS512"].

Section Primitives.

(** The signature of a header and a payload under an algorithm and a
    key. *)
Variable jws_sign : string -> string -> header -> json -> string.
(** The [ms] package: the milliseconds a time span stands for. *)
Variable ms : string -> option Z.

Definition timespan (time : span) (iat : Z) : option Z :=
  match time with
  | Text s =>
      match ms s with
      | Some milliseconds => Some (iat + milliseconds / 1000)
      | None => None
      end
  | Seconds n => Some (iat + n)
  end.

(** [jwt.sign(payload, secret, { expiresIn })] at the instant [clock]
    (in seconds). *)
Definition sign (clock : Z) (payload : json) (secret : option string)
    (expiresIn : span) : completion token :=
  match usable secret with
  | None => Throw (Error "secretOrPrivateKey must have a value")
  | Some k =>
      match payload with
      | JObj o =>
          if negb (number_or_absent (Obj.get "iat" o)
                   && number_or_absent (Obj.get "exp" o)
                   && number_or_absent (Obj.get "nbf" o))
          then Throw (Error "registered claims should be numbers of seconds")
          else if bool_decide (is_Some (Obj.get "exp" o))
          then Throw (Error "Bad options.expiresIn option the payload already has an exp property.")
          else if negb (valid_span expiresIn)
          then Throw (Error "expiresIn should be a number of seconds or string representing a timespan")
          else
            let timestamp :=
              match Obj.get "iat" o with
              | Some (JNum n) => if (n =? 0)%Z then clock else n
              | _ => clock
              end in
            match timespan expiresIn timestamp with
            | Some exp =>
                let h := {| alg := "HS256"; typ := Some "JWT" |} in
                let signed :=
                  JObj (Obj.set "exp" (JNum exp)
                          (Obj.set "iat" (JNum timestamp) o)) in
                Return (Compact h signed (jws_sign "HS256" k h signed))
            | None =>
                Throw (Error "expiresIn should be a number of seconds or string representing a timespan")
            end
      | JStr _ | JNum _ | JBool _ =>
          Throw (Error "invalid expiresIn option for this payload")
      | JNull | JArr _ =>
          Throw (Error "Expected payload to be a plain object.")
      end
  end.

(** The not-before and expiry claims of a payload whose signature was
    found valid. *)
Definition check_claims (clock : Z) (payload : json) : completion json :=
  match claim "nbf" payload with
  | Some (JNum nbf) =>
      if (clock <? nbf)%Z then Throw (NotBeforeError "jwt not active" nbf)
      else
        match claim "exp" payload with
        | Some (JNum exp) =>
            if (exp <=? clock)%Z then Throw (TokenExpiredError "jwt expired" exp)
            else Return payload
        | Some _ => Throw (JsonWebTokenError "invalid exp value")
        | None => Return payload
        end
  | Some _ => Throw (JsonWebTokenError "invalid nbf value")
  | None =>
      match claim "exp" payload with
      | Some (JNum exp) =>
          if (exp <=? clock)%Z then Throw (TokenExpiredError "jwt expired" exp)
          else Return payload
      | Some _ => Throw (JsonWebTokenError "invalid exp value")
      | None => Return payload
      end
  end.

(** [jwt.verify(token, secret)] at the instant [clock] (in seconds). *)
Definition verify (clock : Z) (t : token) (secret : option string)
    : completion json :=
  match t with
  | Malformed _ => Throw (JsonWebTokenError "jwt malformed")
  | Compact h payload signature =>
      match usable secret, signature with
      | Some _, EmptyString =>
          Throw (JsonWebTokenError "jwt signature is required")
      | None, String _ _ =>
          Throw (JsonWebTokenError "secret or public key must be provided")
      | None, EmptyString =>
          if String.eqb (alg h) "none" then check_claims clock payload
          else Throw (JsonWebTokenError "invalid algorithm")
      | Some k, String _ _ =>
          if negb (bool_decide (alg h ∈ hmac_algorithms))
          then Throw (JsonWebTokenError "invalid algorithm")
          else if negb (String.eqb signature (jws_sign (alg h) k h payload))
          then Throw (JsonWebTokenError "invalid signature")
          else check_claims clock payload
      end
  end.

End Primitives.

End Jwt.

(** [expiresIn] defaults to ['30days']. *)
Definition generateToken (jws_sign : string -> string -> Jwt.header -> json -> string)
    (ms : string -> option Z) (env : process_env) (clock : Z)
    (payload : json) (expiresIn : option Jwt.span) : completion Jwt.token :=
  Jwt.sign jws_sign ms clock payload (SECRET_KEY env)
    (default (Jwt.Text "30days") expiresIn).

Definition verifyToken (jws_sign : string -> string -> Jwt.header -> json -> string)
    (env : process_env) (clock : Z) (token : Jwt.token) : completion json :=
  Jwt.verify jws_sign clock token (SECRET_KEY env).

(** ** Text *)

(** The code units [\s] matches: the white space and the line
    terminators of the language. *)
Definition white_space (u : N) : bool :=
  ((u =? 9) || (u =? 10) || (u =? 11) || (u =? 12) || (u =? 13) || (u =? 32)
   || (u =? 160) || (u =? 5760) || ((8192 <=? u) && (u <=? 8202))
   || (u =? 8232) || (u =? 8233) || (u =? 8239) || (u =? 8287)
   || (u =? 12288) || (u =? 65279))%N.

(** [words.replace(/\s/gi, '')], on a string taken as its UTF-16 code
    units (the class goes beyond ASCII): every match is dropped. *)
Fixpoint stripAllSpaces (words : list N) : list N :=
  match words with
  | [] => []
  | u :: rest =>
      if white_space u then stripAllSpaces rest else u :: stripAllSpaces rest
  end.

(** ** Notions the properties are stated with *)

(** No identity has been attached to a request: neither store holds one. *)
Definition unattached (req : Request.t) : Prop :=
  Request.user req = None
  /\ forall s, Request.session req = Some s -> Session.user s = None.

(** The response of the catch-all's handler to the request [req'] it is
    called with, as it goes out to the request [req] that came in. *)
Definition method_not_allowed_response (req req' : Request.t) (res' : response)
    : response :=
  on_the_wire req
    (json_to req' (JObj [("error", JStr "Method not allowed")]) (Res.status 405 res')).

(** A clean miss: the key is not stored, or its entry has expired. *)
Definition miss (key : string) (c : Redis.client) : Prop :=
  match Redis.keys c !! key with
  | Some e => Redis.expires_at e <= Redis.now c
  | None => True
  end.



(** A payload with the claims signing adds to it. *)
Definition with_claims (iat exp : Z) (o : list (string * json)) : json :=
  JObj (Obj.set "exp" (JNum exp) (Obj.set "iat" (JNum iat) o)).

(** [verifyToken(generateToken(payload, expiresIn))], both at one instant. *)
Definition issue_and_verify
    (jws_sign : string -> string -> Jwt.header -> json -> string)
    (ms : string -> option Z) (env : process_env) (clock : Z) (payload : json)
    (expiresIn : option Jwt.span) : completion json :=
  match generateToken jws_sign ms env clock payload expiresIn with
  | Return t => verifyToken jws_sign env clock t
  | Throw e => Throw e
  end.

(** The signature of a token verifies against a key: there is one, the
    header names an HMAC algorithm, and the signature is the one of the
    header and the payload under that algorithm and the key. *)
Definition authentic (jws_sign : string -> string -> Jwt.header -> json -> string)
    (k : string) (t : Jwt.token) : Prop :=
  match t with
  | Jwt.Malformed _ => False
  | Jwt.Compact h p s =>
      s <> "" /\ Jwt.alg h ∈ Jwt.hmac_algorithms /\ s = jws_sign (Jwt.alg h) k h p
  end.

(** The not-before claim of a payload, if it has one, has been reached. *)
Definition active (clock : Z) (payload : json) : Prop :=
  match Jwt.claim "nbf" payload with
  | None => True
  | Some (JNum nbf) => nbf <= clock
  | Some _ => False
  end.

(** ** Inputs the examples are stated at *)

Definition environment (mode : string) : process_env :=
  {| NODE_ENV := Some mode; SECRET_KEY := Some "s3cret"; PORT := None |}.

(** A request as it comes in: no user, no session. *)
Definition bare_request (method path : string) : Request.t :=
  {| Request.method := method; Request.path := path;
     Request.user := None; Request.session := None |}.

Definition empty_session : Session.t :=
  {| Session.user := None; Session.data := [] |}.

Definition ama : json := JObj [("name", JStr "Ama")].

(** A double quote, for writing JSON texts down. *)
Definition dq : string := String JSON.dquote "".

(** The text [{"error":"Method not allowed"}]. *)
Definition method_not_allowed_text : string :=
  "{" +:+ dq +:+ "error" +:+ dq +:+ ":" +:+ dq +:+ "Method not allowed" +:+ dq +:+ "}".

(** The text [{"name":"Ama"}]. *)
Definition ama_text : string :=
  "{" +:+ dq +:+ "name" +:+ dq +:+ ":" +:+ dq +:+ "Ama" +:+ dq +:+ "}".

(** A middleware that only hands the request on. *)
Definition pass : handler := fun req res => Next req res.

(** What [cors()], called without options, does with a request that names
    no headers of its own: an [OPTIONS] request is answered with status 204,
    the headers of a preflight and no body; every other request is handed
    on with the header that allows every origin. *)
Definition cors_default : handler :=
  fun req res =>
    if String.eqb (Request.method req) "OPTIONS" then
      End {| statusCode := 204;
             headers :=
               [("Access-Control-Allow-Origin", "*");
                ("Access-Control-Allow-Methods", "GET,HEAD,PUT,PATCH,POST,DELETE");
                ("Vary", "Access-Control-Request-Headers");
                ("Content-Length", "0")] ++ headers res;
             body := None |}
    else
      Next req
        {| statusCode := statusCode res;
           headers := ("Access-Control-Allow-Origin", "*") :: headers res;
           body := body res |}.

(** What [decodeURIComponent] gives for a path without a percent sign:
    the path. *)
Definition unescaped : string -> option string := fun path => Some path.

(** A router with one route, [GET /teams]; an [OPTIONS] request to that
    path, which the route does not take, the router answers itself with
    the methods the route allows. *)
Definition teams_router : list layer :=
  [App.route "GET" (String.eqb "/teams")
     (fun req res => End (json_to req (JArr []) (Res.status 200 res)));
   App.route "OPTIONS" (String.eqb "/teams")
     (fun _ res =>
        End {| statusCode := 200;
               headers := ("Allow", "GET,HEAD") :: headers res;
               body := Some "GET,HEAD" |})].

Definition no_finalhandler : option json -> Request.t -> response -> response :=
  fun _ _ res => res.

(** A reachable server with no key, at instant 0. *)
Definition empty_redis : Redis.client :=
  {| Redis.reachable := true; Redis.now := 0; Redis.keys := ∅ |}.

Definition unreachable_redis : Redis.client :=
  {| Redis.reachable := false; Redis.now := 0; Redis.keys := ∅ |}.

(** Whether a text is made of letters, digits and spaces only.  Such a
    text is a pattern, and it matches the subjects it occurs in. *)
Definition ordinary_char (c : ascii) : bool :=
  let n := N_of_ascii c in
  (((48 <=? n) && (n <=? 57)) || ((65 <=? n) && (n <=? 90))
   || ((97 <=? n) && (n <=? 122)) || (n =? 32))%N.

Fixpoint ordinary (s : string) : bool :=
  match s with
  | EmptyString => true
  | String c rest => ordinary_char c && ordinary rest
  end.

(** A stand-in for the engine's reading of a source: it accepts the
    ordinary texts, all of which are patterns, and no other. *)
Definition ordinary_source (source flags : string) : option string :=
  if ordinary source then None else Some "Invalid regular expression".

(** What the engine computes for an ordinary source under the flags
    [ig]: whether the subject contains the source, letter case apart. *)
Definition literal_test (re : Mongoose.RegExp) (subject : string) : bool :=
  bool_decide
    (is_Some (String.index 0 (lowercase (Mongoose.source re)) (lowercase subject))).

Definition teams : list Mongoose.document :=
  [ [("name", JStr "Arsenal FC"); ("city", JStr "London")];
    [("name", JStr "ARSENAL Ladies"); ("city", JStr "London")];
    [("name", JStr "Chelsea"); ("city", JStr "London")] ].

(** The questions the stand-in below answers: a text asked of [name] or
    of [city], and an ordinary source under the flags [ig] searched for in
    [name] or in [city]. *)
Definition about_a_team_text (field : string) : bool :=
  String.eqb field "name" || String.eqb field "city".

Definition text_condition (c : string * json) : bool :=
  about_a_team_text (fst c)
  && match snd c with JStr _ => true | _ => false end.

Definition ordinary_clause (c : string * Mongoose.RegExp) : bool :=
  about_a_team_text (fst c)
  && ordinary (Mongoose.source (snd c))
  && String.eqb (Mongoose.flags (snd c)) "ig".

Definition clause_holds (doc : Mongoose.document)
    (clause : string * Mongoose.RegExp) : bool :=
  match Obj.get (fst clause) doc with
  | Some (JStr s) => literal_test (snd clause) s
  | _ => false
  end.

(** A stand-in for the model [Team] over the three documents above, whose
    fields [name] and [city] are texts: a text asked of a field is found
    where the field is that text, and an ordinary source where the field
    contains it, letter case apart.  Of any other question nothing is
    said: the stand-in fails it. *)
Definition teams_model : Mongoose.Model :=
  {| Mongoose.findOne := fun conditions =>
       if forallb text_condition conditions then
         Return
           (List.find
              (fun doc =>
                 forallb
                   (fun c => bool_decide (Obj.get (fst c) doc = Some (snd c)))
                   conditions)
              teams)
       else Throw (Error "a question the stand-in does not answer");
     Mongoose.find_where_or := fun clauses =>
       if forallb ordinary_clause clauses then
         Return
           match clauses with
           | [] => teams
           | _ => List.filter (fun doc => existsb (clause_holds doc) clauses) teams
           end
       else Throw (Error "a question the stand-in does not answer") |}.

Fixpoint replicate_char (n : nat) (c : ascii) : string :=
  match n with
  | O => ""
  | S n' => String c (replicate_char n' c)
  end.

(** A salt of twenty-two characters. *)
Definition a_salt : Bcrypt.drawn_salt :=
  {| Bcrypt.text := "abcdefghijklmnopqrstuu"; Bcrypt.text_length := eq_refl |}.

(** A digest, a signature and a reading of time spans that stand in, where
    an example needs some, for the cipher, the HMAC and the [ms] package. *)
Definition a_digest : Z -> string -> string -> string :=
  fun _ salt k => salt +:+ k.

Definition a_signature : string -> string -> Jwt.header -> json -> string :=
  fun alg k _ _ => alg +:+ ":" +:+ k.

Definition thirty_days : string -> option Z :=
  fun s => if String.eqb s "30days" then Some 2592000000 else None.

Definition jwt_header : Jwt.header :=
  {| Jwt.alg := "HS256"; Jwt.typ := Some "JWT" |}.

(** A token issued at instant 0 that expires at instant 1000. *)
Definition a_token : Jwt.token :=
  Jwt.Compact jwt_header (with_claims 0 1000 [("id", JNum 1)])
    (a_signature "HS256" "s3cret" jwt_header (with_claims 0 1000 [("id", JNum 1)])).

(** The same token with another signature. *)
Definition a_forged_token : Jwt.token :=
  Jwt.Compact jwt_header (with_claims 0 1000 [("id", JNum 1)]) "forged".

(** The same token without a signature. *)
Definition an_unsigned_token : Jwt.token :=
  Jwt.Compact jwt_header (with_claims 0 1000 [("id", JNum 1)]) "".



(** The code units of an ASCII text. *)
Fixpoint units (s : string) : list N :=
  match s with
  | EmptyString => []
  | String c rest => N_of_ascii c :: units rest
  end.

(** A request with an empty session. *)
Definition session_request : Request.t :=
  with_session (Some empty_session) (bare_request "GET" "/").

Definition kofi : json := JObj [("name", JStr "Kofi")].

(** A second salt of twenty-two characters. *)
Definition another_salt : Bcrypt.drawn_salt :=
  {| Bcrypt.text := "ABCDEFGHIJKLMNOPQRSTUU"; Bcrypt.text_length := eq_refl |}.

(** An environment without a secret. *)
Definition no_secret : process_env :=
  {| NODE_ENV := Some "production"; SECRET_KEY := None; PORT := None |}.

(** A reading of time spans that knows [1ms] besides. *)
Definition short_spans : string -> option Z :=
  fun s => if String.eqb s "1ms" then Some 1 else thirty_days s.

(** A middleware that answers every request itself, with status 204. *)
Definition preflight : handler := fun _ res => End (Res.status 204 res).

(** * Properties *)

(** ** Responses *)

Example stringify_method_not_allowed :
  JSON.stringify (JObj [("error", JStr "Method not allowed")]) = method_not_allowed_text.
Proof. reflexivity. Qed.

Example stringify_nested :
  JSON.stringify (JObj [("ids", JArr [JNum 7; JNum (-12); JNull]); ("ok", JBool true)])
  = "{" +:+ dq +:+ "ids" +:+ dq +:+ ":[7,-12,null]," +:+ dq +:+ "ok" +:+ dq +:+ ":true}".
Proof. reflexivity. Qed.

Example stringify_escapes :
  JSON.stringify (JStr ("a" +:+ dq +:+ "b"))
  = dq +:+ "a" +:+ String JSON.backslash dq +:+ "b" +:+ dq.
Proof. reflexivity. Qed.

Example errorResponse_envelope :
  body (errorResponse fresh_response 404 (JStr "Team not found") None)
  = Some ("{" +:+ dq +:+ "status" +:+ dq +:+ ":" +:+ dq +:+ "error" +:+ dq +:+ ","
          +:+ dq +:+ "message" +:+ dq +:+ ":" +:+ dq +:+ "Team not found" +:+ dq +:+ ","
          +:+ dq +:+ "error" +:+ dq +:+ ":" +:+ dq +:+ dq +:+ "}").
Proof. reflexivity. Qed.

(** C8: [serverError] answers with status 500; in production the message
    is the fixed text whatever the error is, in every other environment
    (also with [NODE_ENV] unset) the message is the error passed in. *)
Theorem serverError_status_and_message (env : process_env) (res : response) (e : json) :
  statusCode (serverError env res e) = 500
  /\ (NODE_ENV env = Some "production" ->
      body (serverError env res e)
      = Some (JSON.stringify
                (JObj [("status", JStr "error"); ("message", JStr production_message)]))
      /\ forall e', serverError env res e' = serverError env res e)
  /\ (NODE_ENV env <> Some "production" ->
      body (serverError env res e)
      = Some (JSON.stringify (JObj [("status", JStr "error"); ("message", e)]))).
Proof.
  unfold serverError. split; [reflexivity|]. split; intros Henv.
  - rewrite bool_decide_eq_true_2 by exact Henv. split; [reflexivity|].
    intros e'. reflexivity.
  - rewrite bool_decide_eq_false_2 by exact Henv. reflexivity.
Qed.

Lemma serverError_status_and_message_witness :
  body (serverError (environment "production") fresh_response (JStr "boom"))
  = Some (JSON.stringify
            (JObj [("status", JStr "error"); ("message", JStr production_message)]))
  /\ body (serverError (environment "development") fresh_response (JStr "boom"))
     = Some (JSON.stringify (JObj [("status", JStr "error"); ("message", JStr "boom")])).
Proof.
  split.
  - apply (proj1 (proj2 (serverError_status_and_message
                           (environment "production") fresh_response (JStr "boom")))).
    reflexivity.
  - apply (proj2 (proj2 (serverError_status_and_message
                           (environment "development") fresh_response (JStr "boom")))).
    discriminate.
Defined.

(** ** Routing *)

Lemma run_app (l1 l2 : list layer) (req : Request.t) (res : response) :
  run (l1 ++ l2) req res
  = match run l1 req res with
    | Next req' res' => run l2 req' res'
    | s => s
    end.
Proof.
  revert req res. induction l1 as [|l rest IH]; intros req res; simpl.
  - reflexivity.
  - destruct (takes l req); [|apply IH].
    destruct (handle l req res); auto.
Qed.

(** A stack none of whose layers takes the request hands it on untouched. *)
Lemma run_none_taken (stack : list layer) (req : Request.t) (res : response) :
  Forall (fun l => takes l req = false) stack ->
  run stack req res = Next req res.
Proof.
  induction 1 as [|l rest Hl _ IH]; simpl; [reflexivity|].
  by rewrite Hl.
Qed.

Lemma with_path_restored (p : string) (req : Request.t) :
  with_path (Request.path req) (with_path p req) = req.
Proof. by destruct req. Qed.

(** A router none of whose routes takes the request hands it on as it
    came. *)
Lemma unrouted_request_is_handed_on (mount : string) (router : list layer)
    (req : Request.t) (res : response) :
  Forall (fun l => takes l (with_path (below mount (Request.path req)) req) = false)
    router ->
  handle (App.use_at mount router) req res = Next req res.
Proof.
  intros Hnone. simpl. rewrite (run_none_taken _ _ _ Hnone).
  by rewrite with_path_restored.
Qed.

Example teams_route_answers :
  respond unescaped cors_default (fun _ => pass) pass pass teams_router no_finalhandler
    (environment "production") (bare_request "GET" "/api/v1/teams")
  = Res.json (JArr [])
      (Res.status 200
         {| statusCode := 200;
            headers := [("Access-Control-Allow-Origin", "*")];
            body := None |}).
Proof. reflexivity. Qed.

Example other_method_on_teams :
  statusCode
    (respond unescaped cors_default (fun _ => pass) pass pass teams_router
       no_finalhandler (environment "production") (bare_request "POST" "/api/v1/teams"))
  = 405.
Proof. reflexivity. Qed.

(** [HEAD] goes the way of [GET] and gets no body; without [cors()] ahead
    of it, the router answers [OPTIONS] for the path of its route. *)
Example head_and_options_on_teams :
  respond unescaped cors_default (fun _ => pass) pass pass teams_router no_finalhandler
    (environment "production") (bare_request "HEAD" "/api/v1/teams")
  = {| statusCode := 200;
       headers := [("Content-Type", "application/json; charset=utf-8");
                   ("Access-Control-Allow-Origin", "*")];
       body := None |}
  /\ respond unescaped pass (fun _ => pass) pass pass teams_router no_finalhandler
       (environment "production") (bare_request "OPTIONS" "/api/v1/teams")
     = {| statusCode := 200; headers := [("Allow", "GET,HEAD")]; body := Some "GET,HEAD" |}.
Proof. split; reflexivity. Qed.

(** The mount point is met whatever the case of its letters. *)
Example mount_point_in_capitals :
  under "/api/v1" "/API/V1/teams" = true
  /\ below "/api/v1" "/API/V1/teams" = "/teams"
  /\ respond unescaped cors_default (fun _ => pass) pass pass teams_router
       no_finalhandler (environment "production") (bare_request "GET" "/API/V1/teams")
     = respond unescaped cors_default (fun _ => pass) pass pass teams_router
         no_finalhandler (environment "production") (bare_request "GET" "/api/v1/teams").
Proof. repeat split; reflexivity. Qed.

Example paths_next_to_the_mount_point :
  under "/api/v1" "/api/v1" = true
  /\ under "/api/v1" "/api/v1/" = true
  /\ under "/api/v1" "/api/v10" = false
  /\ under "/api/v1" "/api" = false
  /\ below "/api/v1" "/api/v1" = "/"
  /\ below "/api/v1" "/api/v1/" = "/"
  /\ below "/api/v1" "/api/v1//teams" = "/teams".
Proof. repeat split; reflexivity. Qed.

(** What the catch-all makes of a request that reaches it with a path
    that decodes. *)
Lemma catch_all_answers
    (decodeURIComponent : string -> option string)
    (cors : handler) (morgan : string -> handler) (urlencoded json_body : handler)
    (router : list layer)
    (finalhandler : option json -> Request.t -> response -> response)
    (env : process_env) (req req' : Request.t) (res' : response) :
  run (registered cors morgan urlencoded json_body router env) req fresh_response
  = Next req' res' ->
  is_Some (decodeURIComponent (Request.path req')) ->
  respond decodeURIComponent cors morgan urlencoded json_body router finalhandler env req
  = method_not_allowed_response req req' res'.
Proof.
  intros Hpass [decoded Hdecoded]. unfold respond, app.
  rewrite run_app, Hpass. simpl. rewrite Hdecoded. reflexivity.
Qed.

(** A path that does not decode does not reach the catch-all's handler:
    the error, of status 400, goes to the error handler. *)
Lemma undecodable_path_is_an_error
    (decodeURIComponent : string -> option string)
    (cors : handler) (morgan : string -> handler) (urlencoded json_body : handler)
    (router : list layer)
    (finalhandler : option json -> Request.t -> response -> response)
    (env : process_env) (req req' : Request.t) (res' : response) :
  run (registered cors morgan urlencoded json_body router env) req fresh_response
  = Next req' res' ->
  decodeURIComponent (Request.path req') = None ->
  respond decodeURIComponent cors morgan urlencoded json_body router finalhandler env req
  = on_the_wire req
      (finalhandler (Some (App.decode_failure (Request.path req'))) req' res').
Proof.
  intros Hpass Hdecoded. unfold respond, app.
  rewrite run_app, Hpass. simpl. rewrite Hdecoded. reflexivity.
Qed.

(** The status and the body of the catch-all's response. *)
Lemma method_not_allowed_status_and_body (req req' : Request.t) (res' : response) :
  statusCode (method_not_allowed_response req req' res') = 405
  /\ body (method_not_allowed_response req req' res')
     = if String.eqb (Request.method req) "HEAD"
          || String.eqb (Request.method req') "HEAD"
       then None
       else Some method_not_allowed_text.
Proof.
  unfold method_not_allowed_response, on_the_wire, json_to.
  destruct (String.eqb (Request.method req) "HEAD"),
    (String.eqb (Request.method req') "HEAD"); split; reflexivity.
Qed.

(** C7, as stated, fails: a request that matches no route is not always
    answered with 405 and the body.  [OPTIONS /api/v1/nowhere], which no
    route of the router takes, is answered by [cors()], the first layer of
    the stack, with status 204 and no body; and [HEAD /nowhere] gets the
    405 without a body. *)
Lemma unmatched_request_answered_otherwise :
  Forall
    (fun l =>
       takes l
         (with_path (below "/api/v1" "/api/v1/nowhere")
            (bare_request "OPTIONS" "/api/v1/nowhere"))
       = false)
    teams_router
  /\ statusCode
       (respond unescaped cors_default (fun _ => pass) pass pass teams_router
          no_finalhandler (environment "production")
          (bare_request "OPTIONS" "/api/v1/nowhere"))
     = 204
  /\ body
       (respond unescaped cors_default (fun _ => pass) pass pass teams_router
          no_finalhandler (environment "production")
          (bare_request "OPTIONS" "/api/v1/nowhere"))
     = None
  /\ statusCode
       (respond unescaped cors_default (fun _ => pass) pass pass teams_router
          no_finalhandler (environment "production") (bare_request "HEAD" "/nowhere"))
     = 405
  /\ body
       (respond unescaped cors_default (fun _ => pass) pass pass teams_router
          no_finalhandler (environment "production") (bare_request "HEAD" "/nowhere"))
     = None.
Proof.
  split; [repeat constructor|].
  repeat split; reflexivity.
Qed.

(** C7, amended: a request that every layer mounted ahead of the catch-all
    hands on (no middleware ends it or fails it, no route of the router
    answers it) and whose path decodes is answered with status 405,
    whatever its method and its path, and with the body
    [{"error":"Method not allowed"}] unless its method is [HEAD] (as it
    came in, or as the middleware has left it), which gets no body. *)
Theorem unmatched_request_method_not_allowed
    (decodeURIComponent : string -> option string)
    (cors : handler) (morgan : string -> handler) (urlencoded json_body : handler)
    (router : list layer)
    (finalhandler : option json -> Request.t -> response -> response)
    (env : process_env) (req req' : Request.t) (res' : response) :
  run (registered cors morgan urlencoded json_body router env) req fresh_response
  = Next req' res' ->
  is_Some (decodeURIComponent (Request.path req')) ->
  statusCode
    (respond decodeURIComponent cors morgan urlencoded json_body router finalhandler
       env req)
  = 405
  /\ body
       (respond decodeURIComponent cors morgan urlencoded json_body router finalhandler
          env req)
     = if String.eqb (Request.method req) "HEAD"
          || String.eqb (Request.method req') "HEAD"
       then None
       else Some method_not_allowed_text.
Proof.
  intros Hpass Hdecodes.
  rewrite (catch_all_answers decodeURIComponent cors morgan urlencoded json_body router
             finalhandler env req req' res' Hpass Hdecodes).
  apply method_not_allowed_status_and_body.
Qed.

Lemma registered_split
    (cors : handler) (morgan : string -> handler) (urlencoded json_body : handler)
    (router : list layer) (env : process_env) :
  registered cors morgan urlencoded json_body router env
  = (global_middleware cors morgan urlencoded json_body env
     ++ [App.use_at "/api/v1" router])%list.
Proof.
  unfold registered, global_middleware.
  destruct (bool_decide (NODE_ENV env = Some "development")); reflexivity.
Qed.

(** The one layer of the router, by cases on the path. *)
Lemma run_mounted_router (router : list layer) (req : Request.t) (res : response) :
  run [App.use_at "/api/v1" router] req res
  = if under "/api/v1" (Request.path req)
    then match handle (App.use_at "/api/v1" router) req res with
         | Next r s => Next r s
         | o => o
         end
    else Next req res.
Proof. reflexivity. Qed.

(** In particular: once the middleware has handed the request on, a
    request no layer of the router takes, with a path that decodes, is
    answered with 405. *)
Lemma unrouted_request_gets_405
    (decodeURIComponent : string -> option string)
    (cors : handler) (morgan : string -> handler) (urlencoded json_body : handler)
    (router : list layer)
    (finalhandler : option json -> Request.t -> response -> response)
    (env : process_env) (req req' : Request.t) (res' : response) :
  run (global_middleware cors morgan urlencoded json_body env) req fresh_response
  = Next req' res' ->
  Forall (fun l => takes l (with_path (below "/api/v1" (Request.path req')) req') = false)
    router ->
  is_Some (decodeURIComponent (Request.path req')) ->
  statusCode
    (respond decodeURIComponent cors morgan urlencoded json_body router finalhandler
       env req)
  = 405
  /\ body
       (respond decodeURIComponent cors morgan urlencoded json_body router finalhandler
          env req)
     = if String.eqb (Request.method req) "HEAD"
          || String.eqb (Request.method req') "HEAD"
       then None
       else Some method_not_allowed_text.
Proof.
  intros Hglobal Hroutes Hdecodes.
  rewrite (catch_all_answers decodeURIComponent cors morgan urlencoded json_body router
             finalhandler env req req' res'); [apply method_not_allowed_status_and_body| |exact Hdecodes].
  rewrite registered_split, run_app, Hglobal, run_mounted_router.
  rewrite (unrouted_request_is_handed_on "/api/v1" router req' res' Hroutes).
  by destruct (under "/api/v1" (Request.path req')).
Qed.

Lemma unmatched_request_method_not_allowed_witness :
  statusCode
    (respond unescaped cors_default (fun _ => pass) pass pass teams_router
       no_finalhandler (environment "development")
       (bare_request "DELETE" "/api/v1/nowhere"))
  = 405
  /\ body
       (respond unescaped cors_default (fun _ => pass) pass pass teams_router
          no_finalhandler (environment "development")
          (bare_request "DELETE" "/api/v1/nowhere"))
     = Some method_not_allowed_text.
Proof.
  apply (unmatched_request_method_not_allowed unescaped cors_default (fun _ => pass)
           pass pass teams_router no_finalhandler (environment "development")
           (bare_request "DELETE" "/api/v1/nowhere")
           (bare_request "DELETE" "/api/v1/nowhere")
           {| statusCode := 200;
              headers := [("Access-Control-Allow-Origin", "*")];
              body := None |}).
  - reflexivity.
  - eexists. reflexivity.
Defined.

(** ** The request user *)

(** C6, as stated, fails: outside test mode a request without a session
    object makes [setRequestUser] throw, and [getRequestUser] after it
    throws too instead of returning the user. *)
Lemma setRequestUser_without_session_throws :
  setRequestUser (environment "production") (bare_request "GET" "/api/v1/teams") ama
  = (bare_request "GET" "/api/v1/teams",
     Throw (TypeError "Cannot set property 'user' of undefined"))
  /\ getRequestUser (environment "production")
       (fst (setRequestUser (environment "production")
               (bare_request "GET" "/api/v1/teams") ama))
     = Throw (TypeError "Cannot read property 'user' of undefined").
Proof. split; reflexivity. Qed.

(** C6, amended: for a request that carries a session object whenever the
    mode is not test, [setRequestUser] does not throw, [getRequestUser]
    after it returns the user written, and [getRequestUser] on a request
    no identity has been attached to returns absent; this holds alike in
    both modes. *)
Theorem request_user_read_after_write (env : process_env) (req : Request.t) (u : json) :
  (test_mode env = false -> is_Some (Request.session req)) ->
  snd (setRequestUser env req u) = Return u
  /\ getRequestUser env (fst (setRequestUser env req u)) = Return (Some u)
  /\ (unattached req -> getRequestUser env req = Return None).
Proof.
  intros Hsession. unfold setRequestUser, getRequestUser.
  destruct (test_mode env) eqn:Hmode; simpl.
  - repeat split. intros [Huser _]. by rewrite Huser.
  - destruct (Hsession eq_refl) as [s Hs]. rewrite Hs. simpl.
    repeat split.
    intros [_ Hnone]. by rewrite (Hnone s Hs).
Qed.

Lemma request_user_read_after_write_witness :
  getRequestUser (environment "test")
    (fst (setRequestUser (environment "test") (bare_request "GET" "/") ama))
  = Return (Some ama)
  /\ getRequestUser (environment "production")
       (fst (setRequestUser (environment "production")
               (with_session (Some empty_session) (bare_request "GET" "/")) ama))
     = Return (Some ama)
  /\ getRequestUser (environment "production")
       (with_session (Some empty_session) (bare_request "GET" "/"))
     = Return None.
Proof.
  split; [|split].
  - apply (request_user_read_after_write (environment "test")
             (bare_request "GET" "/") ama).
    discriminate.
  - apply (request_user_read_after_write (environment "production")
             (with_session (Some empty_session) (bare_request "GET" "/")) ama).
    intros _. exists empty_session. reflexivity.
  - apply (request_user_read_after_write (environment "production")
             (with_session (Some empty_session) (bare_request "GET" "/")) ama).
    + intros _. exists empty_session. reflexivity.
    + split; [reflexivity|]. intros s Hs. injection Hs as <-. reflexivity.
Defined.

(** C10: in test mode the two accessors touch [req.user] only: the write
    replaces that field and nothing else, the session included, and the
    read does not depend on the session.  In every other mode they touch
    [req.session.user] only: the write leaves [req.user], the method, the
    path and the session's other fields as they were (also when it throws
    for want of a session), and the read does not depend on [req.user]. *)
Theorem request_user_frame (env : process_env) (req : Request.t)
    (u : json) (s' : option Session.t) (u' : option json) :
  if test_mode env then
    fst (setRequestUser env req u) = with_user (Some u) req
    /\ Request.session (fst (setRequestUser env req u)) = Request.session req
    /\ getRequestUser env (with_session s' req) = getRequestUser env req
  else
    Request.user (fst (setRequestUser env req u)) = Request.user req
    /\ Request.method (fst (setRequestUser env req u)) = Request.method req
    /\ Request.path (fst (setRequestUser env req u)) = Request.path req
    /\ (Session.data <$> Request.session (fst (setRequestUser env req u)))
       = (Session.data <$> Request.session req)
    /\ getRequestUser env (with_user u' req) = getRequestUser env req.
Proof.
  unfold setRequestUser, getRequestUser.
  destruct (test_mode env); simpl.
  - repeat split.
  - destruct req as [m p usr [s|]]; simpl; repeat split.
Qed.

(** ** The cache *)

(** C5: on a clean miss [getFromRedis] calls the callback with [null] and
    nothing is thrown; with the server out of reach it throws an [Error]
    and the callback is not called.  The two outcomes differ. *)
Theorem getFromRedis_miss_is_not_an_error {R : Type} (c : Redis.client)
    (key : string) (callback : json -> R) :
  (Redis.reachable c = true -> miss key c ->
   getFromRedis c key callback = Return (callback JNull))
  /\ (Redis.reachable c = false ->
      getFromRedis c key callback = Throw (Error Redis.unreachable_error))
  /\ (forall (e : js_error) (r : R), Throw e <> Return r).
Proof.
  unfold getFromRedis, Redis.get, miss. repeat split.
  - intros -> Hmiss. simpl.
    destruct (Redis.keys c !! key) as [e|]; [|reflexivity].
    destruct (Z.ltb_spec (Redis.now c) (Redis.expires_at e)); [lia|reflexivity].
  - intros ->. reflexivity.
  - discriminate.
Qed.

Lemma getFromRedis_miss_is_not_an_error_witness :
  getFromRedis empty_redis "user:42" (fun v => v) = Return JNull
  /\ getFromRedis unreachable_redis "user:42" (fun v => v)
     = Throw (Error Redis.unreachable_error).
Proof.
  split.
  - apply (proj1 (getFromRedis_miss_is_not_an_error empty_redis "user:42" (fun v => v))).
    + reflexivity.
    + exact I.
  - apply (proj1 (proj2 (getFromRedis_miss_is_not_an_error
                           unreachable_redis "user:42" (fun v => v)))).
    reflexivity.
Defined.

(** C4, as stated, fails: what [getFromRedis] hands to the callback after
    [storeToRedis("user:42", {name: "Ama"}, 1)] is the JSON text of the
    value, a string, and not the value. *)
Lemma getFromRedis_delivers_the_text :
  getFromRedis (storeToRedis empty_redis "user:42" ama (Some 1)) "user:42" (fun v => v)
  = Return (JStr ama_text)
  /\ JStr ama_text <> ama.
Proof. split; [vm_compute; reflexivity|discriminate]. Qed.

(** C4, amended: with the server in reach, [getFromRedis(K, cb)] after
    [storeToRedis(K, V, ttl)] and before [ttl] seconds have gone by calls
    [cb] with the JSON text of [V] (the string [JSON.stringify(V)], which
    the caller has to decode), and after [removeFromRedis(K)] it calls
    [cb] with [null] whatever was left of the time to live. *)
Theorem redis_store_fetch_evict {R : Type} (c : Redis.client) (K : string)
    (V : json) (ttl : option Z) (elapsed later : Z) (callback : json -> R) :
  Redis.reachable c = true ->
  0 <= elapsed < 1000 * default 3600 ttl ->
  getFromRedis (Redis.elapse elapsed (storeToRedis c K V ttl)) K callback
  = Return (callback (JStr (JSON.stringify V)))
  /\ getFromRedis
       (Redis.elapse later
          (removeFromRedis (Redis.elapse elapsed (storeToRedis c K V ttl)) K))
       K callback
     = Return (callback JNull).
Proof.
  intros Hreach Htime.
  unfold getFromRedis, removeFromRedis, storeToRedis, Redis.get, Redis.del, Redis.setex.
  rewrite Hreach. simpl.
  destruct (Z.leb_spec (default 3600 ttl) 0) as [Hle|Hlt]; [lia|]. simpl.
  rewrite Hreach. simpl. rewrite Hreach. simpl. split.
  - rewrite lookup_insert_eq. simpl.
    destruct (Z.ltb_spec (Redis.now c + elapsed)
                (Redis.now c + 1000 * default 3600 ttl)); [reflexivity|lia].
  - rewrite lookup_delete_eq. reflexivity.
Qed.

Lemma redis_store_fetch_evict_witness :
  getFromRedis (Redis.elapse 999 (storeToRedis empty_redis "user:42" ama (Some 1)))
    "user:42" (fun v => v)
  = Return (JStr (JSON.stringify ama))
  /\ getFromRedis
       (Redis.elapse 0
          (removeFromRedis
             (Redis.elapse 999 (storeToRedis empty_redis "user:42" ama (Some 1)))
             "user:42"))
       "user:42" (fun v => v)
     = Return JNull.
Proof.
  apply (redis_store_fetch_evict empty_redis "user:42" ama (Some 1) 999 0 (fun v => v)).
  - reflexivity.
  - simpl. lia.
Defined.

(** Once the time to live has gone by, the entry reads as a miss. *)
Lemma redis_entry_expires {R : Type} (c : Redis.client) (K : string) (V : json)
    (ttl : option Z) (elapsed : Z) (callback : json -> R) :
  Redis.reachable c = true ->
  0 < default 3600 ttl ->
  1000 * default 3600 ttl <= elapsed ->
  getFromRedis (Redis.elapse elapsed (storeToRedis c K V ttl)) K callback
  = Return (callback JNull).
Proof.
  intros Hreach Httl Htime.
  unfold getFromRedis, storeToRedis, Redis.get, Redis.setex.
  rewrite Hreach. simpl.
  destruct (Z.leb_spec (default 3600 ttl) 0) as [Hle|Hlt]; [lia|]. simpl.
  rewrite Hreach. simpl. rewrite lookup_insert_eq. simpl.
  destruct (Z.ltb_spec (Redis.now c + elapsed)
              (Redis.now c + 1000 * default 3600 ttl)); [lia|reflexivity].
Qed.

Example ama_expires_after_a_second :
  getFromRedis (Redis.elapse 1000 (storeToRedis empty_redis "user:42" ama (Some 1)))
    "user:42" (fun v => v)
  = Return JNull.
Proof. vm_compute. reflexivity. Qed.

(** ** Record lookups *)

Example chelsea_exists :
  checkIfTeamExists teams_model [("name", JStr "Chelsea"); ("city", JStr "London")]
  = Return (Some [("name", JStr "Chelsea"); ("city", JStr "London")]).
Proof. vm_compute. reflexivity. Qed.

Example no_field_finds_all :
  checkIfAnyMatchingRecordExists ordinary_source teams_model [] = Return teams.
Proof. reflexivity. Qed.

(** A text that is not a pattern: the call fails, and the model is not
    asked. *)
Example unbalanced_text_is_rejected :
  checkIfAnyMatchingRecordExists ordinary_source teams_model
    [("city", "london"); ("name", "(")]
  = Throw (SyntaxError "Invalid regular expression").
Proof. reflexivity. Qed.






(** ** Passwords *)

Lemma append_cons (c : ascii) (a b : string) : String c a +:+ b = String c (a +:+ b).
Proof. reflexivity. Qed.

Lemma append_inv_l (a b c : string) : a +:+ b = a +:+ c -> b = c.
Proof.
  induction a as [|x a IH]; [trivial|].
  rewrite !append_cons. intros H. injection H as H. exact (IH H).
Qed.

Lemma length_append (a b : string) :
  String.length (a +:+ b) = (String.length a + String.length b)%nat.
Proof.
  induction a as [|x a IH]; [reflexivity|].
  rewrite append_cons. simpl. by rewrite IH.
Qed.

Lemma str_take_append (a b : string) : str_take (String.length a) (a +:+ b) = a.
Proof.
  induction a as [|x a IH].
  - by destruct b.
  - rewrite append_cons. simpl. by rewrite IH.
Qed.

Lemma str_take_append_le (n : nat) (s t : string) :
  (n <= String.length s)%nat -> str_take n (s +:+ t) = str_take n s.
Proof.
  revert s. induction n as [|n IH]; intros [|c s] Hlen; simpl in *;
    try reflexivity; try lia.
  rewrite ?append_cons. simpl. rewrite IH by lia. reflexivity.
Qed.

Lemma length_str_take (n : nat) (s : string) :
  String.length (str_take n s) = Nat.min n (String.length s).
Proof.
  revert s. induction n as [|n IH]; intros [|c s]; simpl; try reflexivity.
  by rewrite IH.
Qed.

(** Passwords of 72 bytes and more that start alike have the same key. *)
Lemma key_of_long_password (P P' : string) :
  (72 <= String.length P)%nat ->
  str_take 72 P' = str_take 72 P ->
  Bcrypt.key P' = Bcrypt.key P.
Proof.
  intros Hlen Hsame. unfold Bcrypt.key.
  assert (72 <= String.length P')%nat as Hlen'.
  { pose proof (length_str_take 72 P') as H1.
    pose proof (length_str_take 72 P) as H2.
    rewrite Hsame in H1. lia. }
  rewrite !str_take_append_le by assumption. exact Hsame.
Qed.

Lemma digit_value_digit (n : Z) : 0 <= n <= 9 -> Bcrypt.digit_value (Bcrypt.digit n) = Some n.
Proof.
  intros H. rewrite <- (Z2Nat.id n) by lia.
  assert (Z.to_nat n < 10)%nat as Hm by lia.
  revert Hm. generalize (Z.to_nat n). intros m Hm.
  do 10 (destruct m as [|m]; [reflexivity|]). lia.
Qed.

Lemma two_digits_value_two_digits (n : Z) :
  0 <= n <= 99 -> Bcrypt.two_digits_value (Bcrypt.two_digits n) = Some n.
Proof.
  intros H. unfold Bcrypt.two_digits, Bcrypt.two_digits_value.
  rewrite !digit_value_digit.
  - f_equal. pose proof (Z.div_mod n 10). lia.
  - pose proof (Z.mod_pos_bound n 10). lia.
  - split; [apply Z.div_pos; lia|]. apply Z.lt_succ_r, Z.div_lt_upper_bound; lia.
Qed.

Lemma clamp_range (rounds : Z) : 4 <= Bcrypt.clamp rounds <= 31.
Proof.
  unfold Bcrypt.clamp.
  destruct (Z.ltb_spec rounds 4); [lia|].
  destruct (Z.ltb_spec 31 rounds); lia.
Qed.

(** The setting is read back off whatever starts with it. *)
Lemma read_setting_written (rounds : Z) (salt rest : string) :
  4 <= rounds <= 31 ->
  String.length salt = 22%nat ->
  Bcrypt.read_setting ("$2b$" +:+ Bcrypt.two_digits rounds +:+ "$" +:+ salt +:+ rest)
  = Some ("$2b$", rounds, salt).
Proof.
  intros Hrounds Hsalt. unfold Bcrypt.read_setting.
  change ("$2b$" +:+ Bcrypt.two_digits rounds +:+ "$" +:+ salt +:+ rest)
    with (String "$" (String "2" (String "b" (String "$"
            (String (Bcrypt.digit (rounds / 10))
               (String (Bcrypt.digit (rounds mod 10))
                  (String "$" (salt +:+ rest)))))))).
  simpl str_take. simpl str_drop. simpl String.length.
  change (String (Bcrypt.digit (rounds / 10)) (String (Bcrypt.digit (rounds mod 10)) ""))
    with (Bcrypt.two_digits rounds).
  rewrite two_digits_value_two_digits by lia.
  rewrite length_append, Hsalt. simpl.
  destruct (Z.leb_spec 4 rounds); [|lia].
  destruct (Z.leb_spec rounds 31); [|lia]. simpl.
  rewrite <- Hsalt. rewrite str_take_append. reflexivity.
Qed.

Example read_setting_of_a_hash :
  Bcrypt.read_setting "$2b$10$abcdefghijklmnopqrstuu0123456789012345678901234567890"
  = Some ("$2b$", 10, "abcdefghijklmnopqrstuu").
Proof. reflexivity. Qed.

Example hashPassword_of_secret :
  hashPassword a_digest a_salt "secret" None
  = Return ("$2b$10$abcdefghijklmnopqrstuu" +:+ "abcdefghijklmnopqrstuu"
            +:+ "secret" +:+ String Bcrypt.NUL "").
Proof. reflexivity. Qed.

Example comparePassword_rejects_another :
  comparePassword a_digest "Secret"
    ("$2b$10$abcdefghijklmnopqrstuu" +:+ "abcdefghijklmnopqrstuu"
     +:+ "secret" +:+ String Bcrypt.NUL "")
  = false.
Proof. reflexivity. Qed.

Section Passwords.

Variable digest : Z -> string -> string -> string.

(** The hash [hashPassword] resolves to. *)
Lemma hashPassword_returns (drawn : Bcrypt.drawn_salt) (P : string) (C : option Z) :
  hashPassword digest drawn P C
  = Return ("$2b$" +:+ Bcrypt.two_digits (Bcrypt.clamp (default 10 C)) +:+ "$"
            +:+ Bcrypt.text drawn
            +:+ digest (Bcrypt.clamp (default 10 C)) (Bcrypt.text drawn) (Bcrypt.key P)).
Proof.
  unfold hashPassword, Bcrypt.hash, Bcrypt.hashpw, Bcrypt.genSalt.
  pose proof (read_setting_written (Bcrypt.clamp (default 10 C)) (Bcrypt.text drawn) ""
                (clamp_range _) (Bcrypt.text_length drawn)) as Hread.
  replace (Bcrypt.text drawn +:+ "") with (Bcrypt.text drawn) in Hread.
  - rewrite Hread. reflexivity.
  - generalize (Bcrypt.text drawn). induction s as [|c s IH]; [reflexivity|].
    rewrite append_cons. by rewrite <- IH.
Qed.

(** Comparing a password with a hash comes down to comparing digests. *)
Lemma comparePassword_digests (drawn : Bcrypt.drawn_salt) (P P' : string)
    (C : option Z) (h : string) :
  hashPassword digest drawn P C = Return h ->
  comparePassword digest P' h = true
  <-> digest (Bcrypt.clamp (default 10 C)) (Bcrypt.text drawn) (Bcrypt.key P')
      = digest (Bcrypt.clamp (default 10 C)) (Bcrypt.text drawn) (Bcrypt.key P).
Proof.
  rewrite hashPassword_returns. intros [= <-].
  unfold comparePassword, Bcrypt.compareSync, Bcrypt.hashpw.
  rewrite read_setting_written
    by (apply clamp_range || apply Bcrypt.text_length).
  rewrite String.eqb_eq. split.
  - intros H. do 4 apply append_inv_l in H. exact H.
  - intros ->. reflexivity.
Qed.

(** C1, amended: [hashPassword(P, C)] resolves to a hash [h] that
    [comparePassword(P, h)] accepts; [comparePassword(P', h)] is true
    exactly when bcrypt's digests of the keys of [P'] and [P] agree under
    the rounds and the salt of [h], which they do whenever the two keys
    are the same.  The key holds no more than the first 72 bytes, so a
    password [P'] other than [P] is rejected only if it differs from [P]
    within them (and the digests differ). *)
Theorem comparePassword_hashPassword (drawn : Bcrypt.drawn_salt) (P : string)
    (C : option Z) :
  exists h,
    hashPassword digest drawn P C = Return h
    /\ comparePassword digest P h = true
    /\ (forall P',
          comparePassword digest P' h = true
          <-> digest (Bcrypt.clamp (default 10 C)) (Bcrypt.text drawn) (Bcrypt.key P')
              = digest (Bcrypt.clamp (default 10 C)) (Bcrypt.text drawn) (Bcrypt.key P))
    /\ (forall P', Bcrypt.key P' = Bcrypt.key P -> comparePassword digest P' h = true)
    /\ (forall P',
          (72 <= String.length P)%nat ->
          str_take 72 P' = str_take 72 P ->
          comparePassword digest P' h = true).
Proof.
  eexists. split; [apply hashPassword_returns|].
  pose proof (fun P' => comparePassword_digests drawn P P' C _ (hashPassword_returns drawn P C))
    as Hcompare.
  split; [by apply Hcompare|]. split; [exact Hcompare|]. split.
  - intros P' Hkey. apply Hcompare. by rewrite Hkey.
  - intros P' Hlen Hsame. apply Hcompare.
    by rewrite (key_of_long_password P P' Hlen Hsame).
Qed.

End Passwords.

(** C1, as stated, fails whatever the cipher computes: a password of 73
    letters is accepted for the hash of its first 72. *)
Lemma comparePassword_accepts_a_longer_password :
  ~ (exists digest : Z -> string -> string -> string,
       forall (drawn : Bcrypt.drawn_salt) (P P' : string) (C : option Z) (h : string),
         hashPassword digest drawn P C = Return h ->
         P' <> P ->
         comparePassword digest P' h = false).
Proof.
  intros [digest Hclaim].
  pose proof (hashPassword_returns digest a_salt (replicate_char 72 "a") (Some 10))
    as Hhash.
  pose proof (Hclaim a_salt (replicate_char 72 "a") (replicate_char 73 "a") (Some 10)
                _ Hhash) as Hrejected.
  pose proof (proj2 (comparePassword_digests digest a_salt (replicate_char 72 "a")
                       (replicate_char 73 "a") (Some 10) _ Hhash)) as Haccepted.
  rewrite Haccepted in Hrejected.
  - assert (true = false) by (apply Hrejected; discriminate). discriminate.
  - rewrite (key_of_long_password (replicate_char 72 "a") (replicate_char 73 "a"));
      [reflexivity|simpl; lia|reflexivity].
Qed.

Lemma comparePassword_hashPassword_witness :
  exists h,
    hashPassword a_digest a_salt (replicate_char 72 "a") (Some 10) = Return h
    /\ comparePassword a_digest (replicate_char 72 "a") h = true
    /\ comparePassword a_digest (replicate_char 73 "a") h = true.
Proof.
  destruct (comparePassword_hashPassword a_digest a_salt (replicate_char 72 "a") (Some 10))
    as (h & Hhash & Hsame & _ & _ & Hlong).
  exists h. split; [exact Hhash|]. split; [exact Hsame|].
  apply Hlong; [simpl; lia|reflexivity].
Defined.

(** ** Tokens *)

Lemma Obj_get_set_eq (k : string) (v : json) (o : list (string * json)) :
  Obj.get k (Obj.set k v o) = Some v.
Proof.
  induction o as [|[k' v'] rest IH]; simpl.
  - by rewrite String.eqb_refl.
  - destruct (String.eqb k k') eqn:E; simpl; rewrite ?String.eqb_refl, ?E; done.
Qed.

Lemma Obj_get_set_ne (k k' : string) (v : json) (o : list (string * json)) :
  k <> k' -> Obj.get k' (Obj.set k v o) = Obj.get k' o.
Proof.
  intros Hne. induction o as [|[k0 v0] rest IH]; simpl.
  - destruct (String.eqb k' k) eqn:E; [|done].
    apply String.eqb_eq in E. congruence.
  - destruct (String.eqb k k0) eqn:E; simpl.
    + apply String.eqb_eq in E. subst k0.
      destruct (String.eqb k' k) eqn:E'; [|done].
      apply String.eqb_eq in E'. congruence.
    + destruct (String.eqb k' k0); [done|apply IH].
Qed.

Section Tokens.

Variable jws_sign : string -> string -> Jwt.header -> json -> string.
Lemma authentic_dec (k : string) (t : Jwt.token) : authentic jws_sign k t \/ ~ authentic jws_sign k t.
Proof.
  destruct t as [text|h p s]; simpl; [tauto|].
  destruct (decide (s = "")); [tauto|].
  destruct (decide (Jwt.alg h ∈ Jwt.hmac_algorithms)); [|tauto].
  destruct (decide (s = jws_sign (Jwt.alg h) k h p)); tauto.
Qed.

Lemma verify_authentic (env : process_env) (clock : Z) (k : string)
    (h : Jwt.header) (p : json) (s : string) :
  Jwt.usable (SECRET_KEY env) = Some k ->
  authentic jws_sign k (Jwt.Compact h p s) ->
  verifyToken jws_sign env clock (Jwt.Compact h p s) = Jwt.check_claims clock p.
Proof.
  intros Hk (Hs & Halg & Hsig). unfold verifyToken, Jwt.verify. rewrite Hk.
  destruct s as [|c s]; [done|].
  rewrite bool_decide_eq_true_2 by exact Halg.
  rewrite <- Hsig, String.eqb_refl. reflexivity.
Qed.

Lemma verify_not_authentic (env : process_env) (clock : Z) (k : string)
    (t : Jwt.token) :
  Jwt.usable (SECRET_KEY env) = Some k ->
  ~ authentic jws_sign k t ->
  exists m, verifyToken jws_sign env clock t = Throw (JsonWebTokenError m).
Proof.
  intros Hk Hnot. unfold verifyToken, Jwt.verify.
  destruct t as [text|h p s]; [eexists; reflexivity|].
  rewrite Hk. destruct s as [|c s]; [eexists; reflexivity|].
  destruct (decide (Jwt.alg h ∈ Jwt.hmac_algorithms)) as [Halg|Halg].
  - rewrite bool_decide_eq_true_2 by exact Halg.
    destruct (String.eqb (String c s) (jws_sign (Jwt.alg h) k h p)) eqn:Hsig;
      [|eexists; reflexivity].
    apply String.eqb_eq in Hsig. exfalso. apply Hnot. simpl. done.
  - rewrite bool_decide_eq_false_2 by exact Halg. simpl. eexists; reflexivity.
Qed.

Lemma check_claims_expired (clock exp : Z) (p : json) :
  active clock p ->
  Jwt.claim "exp" p = Some (JNum exp) ->
  exp <= clock ->
  Jwt.check_claims clock p = Throw (TokenExpiredError "jwt expired" exp).
Proof.
  unfold active, Jwt.check_claims. intros Hactive -> Hexp.
  destruct (Jwt.claim "nbf" p) as [[| |nbf| | |]|]; try done.
  - destruct (Z.ltb_spec clock nbf); [lia|].
    destruct (Z.leb_spec exp clock); [reflexivity|lia].
  - destruct (Z.leb_spec exp clock); [reflexivity|lia].
Qed.



(** A token that was accepted is rejected as expired from its expiry on. *)
Lemma accepted_token_expires (env : process_env) (earlier clock exp : Z)
    (k : string) (t : Jwt.token) (p : json) :
  Jwt.usable (SECRET_KEY env) = Some k ->
  verifyToken jws_sign env earlier t = Return p ->
  Jwt.claim "exp" p = Some (JNum exp) ->
  earlier <= clock ->
  exp <= clock ->
  verifyToken jws_sign env clock t = Throw (TokenExpiredError "jwt expired" exp).
Proof.
  intros Hk Haccepted Hclaim Hlater Hexp.
  destruct t as [text|h p' s]; [discriminate|].
  assert (authentic jws_sign k (Jwt.Compact h p' s)) as Hauth.
  { destruct (authentic_dec k (Jwt.Compact h p' s)) as [H|H]; [exact H|].
    destruct (verify_not_authentic env earlier k _ Hk H) as [m Hm]. congruence. }
  rewrite (verify_authentic env earlier k h p' s Hk Hauth) in Haccepted.
  rewrite (verify_authentic env clock k h p' s Hk Hauth).
  unfold Jwt.check_claims in Haccepted.
  assert (p' = p /\ active earlier p') as [-> Hactive].
  { unfold active.
    destruct (Jwt.claim "nbf" p') as [[| |nbf| | |]|]; try discriminate;
      [destruct (Z.ltb_spec earlier nbf); [discriminate|]|];
      (destruct (Jwt.claim "exp" p') as [[| |e| | |]|]; try discriminate;
       [destruct (Z.leb_spec e earlier); [discriminate|]|]);
      injection Haccepted as ->; split; trivial. }
  apply check_claims_expired; try assumption.
  unfold active in *. destruct (Jwt.claim "nbf" p) as [[| |nbf| | |]|]; try done. lia.
Qed.

End Tokens.

Example unsigned_token_is_rejected :
  verifyToken a_signature (environment "production") 500 an_unsigned_token
  = Throw (JsonWebTokenError "jwt signature is required").
Proof. reflexivity. Qed.

Example token_in_time_is_accepted :
  verifyToken a_signature (environment "production") 999 a_token
  = Return (with_claims 0 1000 [("id", JNum 1)]).
Proof. reflexivity. Qed.

Example generateToken_without_secret :
  generateToken a_signature thirty_days
    {| NODE_ENV := Some "production"; SECRET_KEY := None; PORT := None |}
    0 (JObj [("id", JNum 1)]) None
  = Throw (Error "secretOrPrivateKey must have a value").
Proof. reflexivity. Qed.




(** A token that was accepted is rejected once anything in its signature
    is altered. *)
Lemma altered_signature_is_rejected
    (jws_sign : string -> string -> Jwt.header -> json -> string)
    (env : process_env) (clock : Z) (k : string)
    (h : Jwt.header) (p : json) (s s' : string) (accepted : json) :
  Jwt.usable (SECRET_KEY env) = Some k ->
  verifyToken jws_sign env clock (Jwt.Compact h p s) = Return accepted ->
  s' <> s ->
  exists m,
    verifyToken jws_sign env clock (Jwt.Compact h p s') = Throw (JsonWebTokenError m).
Proof.
  intros Hk Haccepted Hne. apply (verify_not_authentic jws_sign env clock k _ Hk).
  intros (_ & _ & Hsig').
  destruct (authentic_dec jws_sign k (Jwt.Compact h p s)) as [(_ & _ & Hsig)|Hnot].
  - congruence.
  - destruct (verify_not_authentic jws_sign env clock k _ Hk Hnot) as [m Hm].
    congruence.
Qed.

(** C2, as stated, fails whatever the signature and the time spans are:
    [verifyToken(generateToken({id: 1}))] does not return [{id: 1}]; when
    it returns, the payload has the claims [iat] and [exp] besides.  Nor
    does every payload get a token: one that has an [exp] already, or that
    is a string, makes [generateToken] throw. *)
Lemma verifyToken_does_not_return_the_payload :
  ~ (exists (jws_sign : string -> string -> Jwt.header -> json -> string)
            (ms : string -> option Z),
       issue_and_verify jws_sign ms (environment "production") 1000
         (JObj [("id", JNum 1)]) None
       = Return (JObj [("id", JNum 1)]))
  /\ issue_and_verify a_signature thirty_days (environment "production") 1000
       (JObj [("id", JNum 1)]) None
     = Return (JObj [("id", JNum 1); ("iat", JNum 1000); ("exp", JNum 2593000)])
  /\ generateToken a_signature thirty_days (environment "production") 1000
       (JObj [("id", JNum 1); ("exp", JNum 5000)]) None
     = Throw (Error "Bad options.expiresIn option the payload already has an exp property.")
  /\ generateToken a_signature thirty_days (environment "production") 1000
       (JStr "ama") None
     = Throw (Error "invalid expiresIn option for this payload").
Proof.
  split; [|repeat split].
  intros (jws_sign & ms & H).
  unfold issue_and_verify, generateToken, Jwt.sign, Jwt.timespan in H. simpl in H.
  destruct (ms "30days") as [d|]; [|discriminate].
  unfold verifyToken, Jwt.verify in H. simpl in H.
  destruct (jws_sign _ _ _ _) as [|c s] eqn:Hsig; [discriminate|].
  rewrite String.eqb_refl in H. simpl in H.
  unfold Jwt.check_claims in H. simpl in H.
  destruct (Z.leb_spec (1000 + d / 1000) 1000); discriminate.
Qed.

(** C2, amended: with a secret configured (and signatures that are not
    empty), for an object payload that has none of the claims [iat], [exp]
    and [nbf], and a time span, not the empty string, that puts the expiry
    after the instant of verification, [generateToken] returns a token,
    and [verifyToken] on that token succeeds and returns the payload with
    every field it had, unchanged, and with the two claims signing added:
    [iat], the instant of issuance, and [exp], the expiry. *)
Theorem generateToken_then_verifyToken
    (jws_sign : string -> string -> Jwt.header -> json -> string)
    (ms : string -> option Z) (env : process_env) (clock later : Z)
    (o : list (string * json)) (expiresIn : option Jwt.span)
    (k : string) (exp : Z) :
  Jwt.usable (SECRET_KEY env) = Some k ->
  (forall h p, jws_sign "HS256" k h p <> "") ->
  Obj.get "iat" o = None ->
  Obj.get "exp" o = None ->
  Obj.get "nbf" o = None ->
  Jwt.valid_span (default (Jwt.Text "30days") expiresIn) = true ->
  Jwt.timespan ms (default (Jwt.Text "30days") expiresIn) clock = Some exp ->
  clock <= later < exp ->
  exists t,
    generateToken jws_sign ms env clock (JObj o) expiresIn = Return t
    /\ verifyToken jws_sign env later t = Return (with_claims clock exp o)
    /\ (forall name v,
          Obj.get name o = Some v ->
          Jwt.claim name (with_claims clock exp o) = Some v)
    /\ Jwt.claim "iat" (with_claims clock exp o) = Some (JNum clock)
    /\ Jwt.claim "exp" (with_claims clock exp o) = Some (JNum exp).
Proof.
  intros Hk Hsigned Hiat Hexp Hnbf Hvalid Hspan Hlater.
  assert (Jwt.claim "exp" (with_claims clock exp o) = Some (JNum exp)) as Hclaim_exp
    by apply Obj_get_set_eq.
  assert (forall name, name <> "iat" -> name <> "exp" ->
            Jwt.claim name (with_claims clock exp o) = Obj.get name o) as Hkept.
  { intros name Hn1 Hn2. unfold with_claims, Jwt.claim.
    rewrite !Obj_get_set_ne by congruence. reflexivity. }
  eexists. split; [|split; [|split; [|split]]].
  - unfold generateToken, Jwt.sign.
    rewrite Hk, Hiat, Hexp, Hnbf, Hvalid, Hspan. simpl. reflexivity.
  - rewrite verify_authentic with (k := k);
      [|exact Hk|split; [apply Hsigned|split; [|reflexivity]]].
    + unfold Jwt.check_claims. fold (with_claims clock exp o).
      rewrite Hkept, Hnbf, Hclaim_exp by discriminate.
      destruct (Z.leb_spec exp later); [lia|reflexivity].
    + apply list_elem_of_In. left. reflexivity.
  - intros name v Hget. rewrite Hkept; [exact Hget|congruence..].
  - unfold with_claims, Jwt.claim.
    rewrite Obj_get_set_ne by discriminate. apply Obj_get_set_eq.
  - exact Hclaim_exp.
Qed.

Lemma generateToken_then_verifyToken_witness :
  exists t,
    generateToken a_signature thirty_days (environment "production") 1000
      (JObj [("id", JNum 1)]) None
    = Return t
    /\ verifyToken a_signature (environment "production") 1000 t
       = Return (with_claims 1000 2593000 [("id", JNum 1)])
    /\ (forall name v,
          Obj.get name [("id", JNum 1)] = Some v ->
          Jwt.claim name (with_claims 1000 2593000 [("id", JNum 1)]) = Some v)
    /\ Jwt.claim "iat" (with_claims 1000 2593000 [("id", JNum 1)]) = Some (JNum 1000)
    /\ Jwt.claim "exp" (with_claims 1000 2593000 [("id", JNum 1)]) = Some (JNum 2593000).
Proof.
  apply (generateToken_then_verifyToken a_signature thirty_days
           (environment "production") 1000 1000 [("id", JNum 1)] None "s3cret" 2593000).
  - reflexivity.
  - intros h p. discriminate.
  - reflexivity.
  - reflexivity.
  - reflexivity.
  - reflexivity.
  - reflexivity.
  - lia.
Defined.

(** * Further properties *)

(** ** The application *)

(** Outside the development environment morgan is not mounted: the
    response does not depend on it. *)
Theorem morgan_only_in_development
    (decodeURIComponent : string -> option string)
    (cors : handler) (morgan morgan' : string -> handler)
    (urlencoded json_body : handler) (router : list layer)
    (finalhandler : option json -> Request.t -> response -> response)
    (env : process_env) (req : Request.t) :
  NODE_ENV env <> Some "development" ->
  respond decodeURIComponent cors morgan urlencoded json_body router finalhandler env req
  = respond decodeURIComponent cors morgan' urlencoded json_body router finalhandler
      env req.
Proof.
  intros Henv. unfold respond, app, registered.
  rewrite !bool_decide_eq_false_2 by exact Henv. reflexivity.
Qed.

Lemma morgan_only_in_development_witness :
  respond unescaped pass (fun _ => preflight) pass pass teams_router no_finalhandler
    (environment "production") (bare_request "GET" "/api/v1/teams")
  = respond unescaped pass (fun _ => pass) pass pass teams_router no_finalhandler
      (environment "production") (bare_request "GET" "/api/v1/teams").
Proof.
  apply (morgan_only_in_development unescaped pass (fun _ => preflight) (fun _ => pass)
           pass pass teams_router no_finalhandler (environment "production")
           (bare_request "GET" "/api/v1/teams")).
  discriminate.
Defined.

(** A request whose path does not lie under [/api/v1], letter case apart,
    never reaches the router: once the middleware has handed it on, and
    its path decoding, it gets the 405 whatever layers the router has. *)
Theorem router_only_under_its_mount_point
    (decodeURIComponent : string -> option string)
    (cors : handler) (morgan : string -> handler) (urlencoded json_body : handler)
    (router : list layer)
    (finalhandler : option json -> Request.t -> response -> response)
    (env : process_env) (req req' : Request.t) (res' : response) :
  run (global_middleware cors morgan urlencoded json_body env) req fresh_response
  = Next req' res' ->
  under "/api/v1" (Request.path req') = false ->
  is_Some (decodeURIComponent (Request.path req')) ->
  respond decodeURIComponent cors morgan urlencoded json_body router finalhandler env req
  = method_not_allowed_response req req' res'.
Proof.
  intros Hglobal Houtside Hdecodes.
  apply (catch_all_answers decodeURIComponent cors morgan urlencoded json_body router
           finalhandler env req req' res'); [|exact Hdecodes].
  rewrite registered_split, run_app, Hglobal, run_mounted_router.
  by rewrite Houtside.
Qed.

Lemma router_only_under_its_mount_point_witness :
  respond unescaped cors_default (fun _ => pass) pass pass teams_router no_finalhandler
    (environment "production") (bare_request "GET" "/teams")
  = method_not_allowed_response (bare_request "GET" "/teams")
      (bare_request "GET" "/teams")
      {| statusCode := 200;
         headers := [("Access-Control-Allow-Origin", "*")];
         body := None |}.
Proof.
  apply (router_only_under_its_mount_point unescaped cors_default (fun _ => pass)
           pass pass teams_router no_finalhandler (environment "production")
           (bare_request "GET" "/teams") (bare_request "GET" "/teams")).
  - reflexivity.
  - reflexivity.
  - eexists. reflexivity.
Defined.

Lemma unrouted_request_gets_405_witness :
  statusCode
    (respond unescaped cors_default (fun _ => pass) pass pass teams_router
       no_finalhandler (environment "production") (bare_request "GET" "/api/v1/fixtures"))
  = 405
  /\ body
       (respond unescaped cors_default (fun _ => pass) pass pass teams_router
          no_finalhandler (environment "production")
          (bare_request "GET" "/api/v1/fixtures"))
     = Some method_not_allowed_text.
Proof.
  apply (unrouted_request_gets_405 unescaped cors_default (fun _ => pass) pass pass
           teams_router no_finalhandler (environment "production")
           (bare_request "GET" "/api/v1/fixtures")
           (bare_request "GET" "/api/v1/fixtures")
           {| statusCode := 200;
              headers := [("Access-Control-Allow-Origin", "*")];
              body := None |}).
  - reflexivity.
  - repeat constructor.
  - eexists. reflexivity.
Defined.

(** ** Envelopes *)

(** An error envelope and a success envelope never have the same body,
    whatever they carry: the body of [errorResponse] and of [serverError]
    starts with [{"status":"e], the body of [successResponse] with
    [{"status":"s].  Each is sent under the status code it was given
    ([serverError]: 500). *)
Theorem envelopes_are_told_apart (env : process_env) (res res' : response)
    (code code' : Z) (message e : json) (error message' data : option json) :
  body (errorResponse res code message error)
  <> body (successResponse res' code' message' data)
  /\ body (serverError env res e) <> body (successResponse res' code' message' data)
  /\ statusCode (errorResponse res code message error) = code
  /\ statusCode (successResponse res' code' message' data) = code'.
Proof.
  assert (forall b, body (successResponse res' code' message' data) = Some b ->
                    str_take 12 b = "{" +:+ dq +:+ "status" +:+ dq +:+ ":" +:+ dq +:+ "s")
    as Hsuccess.
  { intros b [= <-]. destruct data; reflexivity. }
  split; [|split; [|split; reflexivity]].
  - intros Heq. symmetry in Heq. apply Hsuccess in Heq. discriminate Heq.
  - intros Heq. symmetry in Heq. apply Hsuccess in Heq.
    unfold serverError in Heq.
    destruct (bool_decide (NODE_ENV env = Some "production")); discriminate Heq.
Qed.

(** ** Text *)

Lemma stripAllSpaces_app (a b : list N) :
  stripAllSpaces (a ++ b) = (stripAllSpaces a ++ stripAllSpaces b)%list.
Proof.
  induction a as [|u a IH]; simpl; [reflexivity|].
  destruct (white_space u); simpl; by rewrite IH.
Qed.

Lemma stripAllSpaces_clean (words : list N) :
  Forall (fun u => white_space u = false) words -> stripAllSpaces words = words.
Proof.
  induction 1 as [|u rest Hu _ IH]; simpl; [reflexivity|].
  by rewrite Hu, IH.
Qed.

Lemma stripAllSpaces_no_space (words : list N) :
  Forall (fun u => white_space u = false) (stripAllSpaces words).
Proof.
  induction words as [|u rest IH]; simpl; [constructor|].
  destruct (white_space u) eqn:Hu; [exact IH|by constructor].
Qed.

(** [stripAllSpaces] leaves no white space behind, changes nothing in a
    text that has none, and so does nothing when applied a second time;
    the result is never longer than the text. *)
Theorem stripAllSpaces_strips (words : list N) :
  Forall (fun u => white_space u = false) (stripAllSpaces words)
  /\ (Forall (fun u => white_space u = false) words -> stripAllSpaces words = words)
  /\ stripAllSpaces (stripAllSpaces words) = stripAllSpaces words
  /\ (length (stripAllSpaces words) <= length words)%nat.
Proof.
  split; [apply stripAllSpaces_no_space|].
  split; [apply stripAllSpaces_clean|].
  split; [apply stripAllSpaces_clean, stripAllSpaces_no_space|].
  induction words as [|u rest IH]; simpl; [lia|].
  destruct (white_space u); simpl; lia.
Qed.

Lemma stripAllSpaces_strips_witness :
  stripAllSpaces (units "ManCity") = units "ManCity".
Proof.
  apply (proj1 (proj2 (stripAllSpaces_strips (units "ManCity")))).
  repeat constructor.
Defined.

(** [stripAllSpaces] works piece by piece and keeps the other code units
    in their order, so two texts that differ by white space only (a space,
    a tab, a line break, a no-break space, ...) are stripped to the same
    text. *)
Theorem stripAllSpaces_ignores_white_space (a b : list N) (u : N) :
  stripAllSpaces (a ++ b) = (stripAllSpaces a ++ stripAllSpaces b)%list
  /\ (white_space u = true -> stripAllSpaces (a ++ u :: b) = stripAllSpaces (a ++ b))
  /\ (white_space u = false ->
      stripAllSpaces (a ++ u :: b)
      = (stripAllSpaces a ++ u :: stripAllSpaces b)%list).
Proof.
  split; [apply stripAllSpaces_app|]. split; intros Hu.
  - rewrite !stripAllSpaces_app. simpl. by rewrite Hu.
  - rewrite stripAllSpaces_app. simpl. by rewrite Hu.
Qed.

Lemma stripAllSpaces_ignores_white_space_witness :
  stripAllSpaces (units "Man" ++ 32%N :: units "City")
  = stripAllSpaces (units "Man" ++ units "City")
  /\ stripAllSpaces (units "Man" ++ 45%N :: units "City")
     = (stripAllSpaces (units "Man") ++ 45%N :: stripAllSpaces (units "City"))%list.
Proof.
  split.
  - apply (proj1 (proj2 (stripAllSpaces_ignores_white_space
                           (units "Man") (units "City") 32%N))).
    reflexivity.
  - apply (proj2 (proj2 (stripAllSpaces_ignores_white_space
                           (units "Man") (units "City") 45%N))).
    reflexivity.
Defined.

Example stripAllSpaces_of_a_name :
  stripAllSpaces (units " Man  City ") = units "ManCity".
Proof. reflexivity. Qed.

(** ** The request user, written twice *)

(** The last write wins: after two writes the request is as after the
    second alone, and the read returns the second user. *)
Theorem request_user_last_write_wins (env : process_env) (req : Request.t)
    (u1 u2 : json) :
  (test_mode env = false -> is_Some (Request.session req)) ->
  fst (setRequestUser env (fst (setRequestUser env req u1)) u2)
  = fst (setRequestUser env req u2)
  /\ getRequestUser env (fst (setRequestUser env (fst (setRequestUser env req u1)) u2))
     = Return (Some u2).
Proof.
  intros Hsession. unfold setRequestUser, getRequestUser.
  destruct (test_mode env); simpl.
  - split; reflexivity.
  - destruct (Hsession eq_refl) as [s Hs]. rewrite Hs. simpl. split; reflexivity.
Qed.

Lemma request_user_last_write_wins_witness :
  getRequestUser (environment "production")
    (fst (setRequestUser (environment "production")
            (fst (setRequestUser (environment "production") session_request ama))
            kofi))
  = Return (Some kofi).
Proof.
  apply (request_user_last_write_wins (environment "production") session_request ama kofi).
  intros _. exists empty_session. reflexivity.
Defined.

(** ** The cache, further *)

Lemma stringify_not_empty (j : json) : JSON.stringify j <> "".
Proof.
  destruct j as [|[|]|n|s|l|o]; try discriminate.
  unfold JSON.stringify, JSON.number, NilZero.string_of_int.
  destruct (Z.to_int n) as [d|d]; [|discriminate].
  destruct d; discriminate.
Qed.

(** A later [storeToRedis] on the same key replaces both the value and the
    time to live of an earlier one: the new value is read until its own
    time to live has gone by, and not after, whatever the earlier time to
    live was. *)
Theorem storeToRedis_overwrites {R : Type} (c : Redis.client) (K : string)
    (V1 V2 : json) (ttl1 ttl2 : option Z) (between elapsed : Z)
    (callback : json -> R) :
  Redis.reachable c = true ->
  0 < default 3600 ttl2 ->
  0 <= elapsed ->
  getFromRedis
    (Redis.elapse elapsed
       (storeToRedis (Redis.elapse between (storeToRedis c K V1 ttl1)) K V2 ttl2))
    K callback
  = Return (callback (if (elapsed <? 1000 * default 3600 ttl2)%Z
                      then JStr (JSON.stringify V2) else JNull)).
Proof.
  intros Hreach Httl Helapsed.
  assert (Redis.reachable (Redis.elapse between (storeToRedis c K V1 ttl1)) = true)
    as Hreach'.
  { unfold storeToRedis, Redis.setex. rewrite Hreach. simpl.
    destruct (default 3600 ttl1 <=? 0)%Z; exact Hreach. }
  generalize dependent (Redis.elapse between (storeToRedis c K V1 ttl1)).
  intros c' Hreach'.
  unfold getFromRedis, storeToRedis, Redis.get, Redis.setex.
  rewrite Hreach'. simpl.
  destruct (Z.leb_spec (default 3600 ttl2) 0) as [Hle|Hlt]; [lia|]. simpl.
  rewrite Hreach'. simpl. rewrite lookup_insert_eq. simpl.
  destruct (Z.ltb_spec (Redis.now c' + elapsed)
              (Redis.now c' + 1000 * default 3600 ttl2));
    destruct (Z.ltb_spec elapsed (1000 * default 3600 ttl2)); try lia; reflexivity.
Qed.

Lemma storeToRedis_overwrites_witness :
  getFromRedis
    (Redis.elapse 500
       (storeToRedis
          (Redis.elapse 10 (storeToRedis empty_redis "user:42" ama (Some 3600)))
          "user:42" kofi (Some 1)))
    "user:42" (fun v => v)
  = Return (if (500 <? 1000 * default 3600 (Some 1))%Z
            then JStr (JSON.stringify kofi) else JNull).
Proof.
  apply (storeToRedis_overwrites empty_redis "user:42" ama kofi (Some 3600) (Some 1)
           10 500 (fun v => v)).
  - reflexivity.
  - simpl. lia.
  - lia.
Defined.

(** Storing or removing one key leaves every other key as it reads. *)
Theorem other_keys_are_untouched {R : Type} (c : Redis.client) (K K' : string)
    (V : json) (ttl : option Z) (callback : json -> R) :
  K <> K' ->
  getFromRedis (storeToRedis c K V ttl) K' callback = getFromRedis c K' callback
  /\ getFromRedis (removeFromRedis c K) K' callback = getFromRedis c K' callback.
Proof.
  intros Hne.
  unfold getFromRedis, storeToRedis, removeFromRedis, Redis.get, Redis.setex, Redis.del.
  destruct (Redis.reachable c) eqn:Hreach; simpl; rewrite ?Hreach; simpl;
    [|split; reflexivity].
  split.
  - destruct (default 3600 ttl <=? 0)%Z; simpl; rewrite Hreach; simpl; [reflexivity|].
    by rewrite lookup_insert_ne.
  - by rewrite lookup_delete_ne.
Qed.

Lemma other_keys_are_untouched_witness :
  getFromRedis
    (storeToRedis (storeToRedis empty_redis "user:42" ama None) "user:7" kofi None)
    "user:42" (fun v => v)
  = getFromRedis (storeToRedis empty_redis "user:42" ama None) "user:42" (fun v => v)
  /\ getFromRedis
       (removeFromRedis (storeToRedis empty_redis "user:42" ama None) "user:7")
       "user:42" (fun v => v)
     = getFromRedis (storeToRedis empty_redis "user:42" ama None) "user:42" (fun v => v).
Proof.
  apply (other_keys_are_untouched (storeToRedis empty_redis "user:42" ama None)
           "user:7" "user:42" kofi None (fun v => v)).
  discriminate.
Defined.

Lemma redis_entry_expires_witness :
  getFromRedis (Redis.elapse 1000 (storeToRedis empty_redis "user:42" ama (Some 1)))
    "user:42" (fun v => v)
  = Return JNull.
Proof.
  apply (redis_entry_expires empty_redis "user:42" ama (Some 1) 1000 (fun v => v)).
  - reflexivity.
  - simpl. lia.
  - simpl. lia.
Defined.

(** Removing a key twice is removing it once, and removing a key that is
    not stored changes nothing. *)
Theorem removeFromRedis_idempotent (c : Redis.client) (K : string) :
  removeFromRedis (removeFromRedis c K) K = removeFromRedis c K
  /\ (Redis.keys c !! K = None -> removeFromRedis c K = c).
Proof.
  unfold removeFromRedis, Redis.del.
  destruct c as [reach clock stored]. destruct reach; simpl.
  - split.
    + unfold Redis.with_keys. simpl. by rewrite delete_delete_eq.
    + intros Hnone. unfold Redis.with_keys. simpl. by rewrite delete_id.
  - split; reflexivity.
Qed.

Lemma removeFromRedis_idempotent_witness :
  removeFromRedis empty_redis "user:42" = empty_redis.
Proof.
  apply (proj2 (removeFromRedis_idempotent empty_redis "user:42")).
  reflexivity.
Defined.

(** A time to live of zero or less stores nothing: the server refuses the
    command, no callback reports it, and the key reads as it did before. *)
Theorem storeToRedis_without_time_to_live {R : Type} (c : Redis.client)
    (K : string) (V : json) (t : Z) (callback : json -> R) :
  t <= 0 ->
  storeToRedis c K V (Some t) = c
  /\ getFromRedis (storeToRedis c K V (Some t)) K callback = getFromRedis c K callback.
Proof.
  intros Ht.
  assert (storeToRedis c K V (Some t) = c) as Hsame.
  { unfold storeToRedis, Redis.setex. simpl.
    destruct (Redis.reachable c); simpl; [|reflexivity].
    destruct (Z.leb_spec t 0); [reflexivity|lia]. }
  by rewrite Hsame.
Qed.

Lemma storeToRedis_without_time_to_live_witness :
  getFromRedis (storeToRedis empty_redis "user:42" ama (Some 0)) "user:42" (fun v => v)
  = getFromRedis empty_redis "user:42" (fun v => v).
Proof.
  apply (storeToRedis_without_time_to_live empty_redis "user:42" ama 0 (fun v => v)).
  lia.
Defined.

(** What is read back while an entry lives is a string that is not empty,
    so a hit is truthy in JavaScript and a miss, [null], is not. *)
Theorem cache_hit_is_truthy {R : Type} (c : Redis.client) (K : string)
    (V : json) (ttl : option Z) (elapsed : Z) (callback : json -> R) :
  Redis.reachable c = true ->
  0 <= elapsed < 1000 * default 3600 ttl ->
  exists text,
    getFromRedis (Redis.elapse elapsed (storeToRedis c K V ttl)) K callback
    = Return (callback (JStr text))
    /\ text <> "".
Proof.
  intros Hreach Htime. exists (JSON.stringify V).
  split; [|apply stringify_not_empty].
  unfold getFromRedis, storeToRedis, Redis.get, Redis.setex.
  rewrite Hreach. simpl.
  destruct (Z.leb_spec (default 3600 ttl) 0) as [Hle|Hlt]; [lia|]. simpl.
  rewrite Hreach. simpl. rewrite lookup_insert_eq. simpl.
  destruct (Z.ltb_spec (Redis.now c + elapsed)
              (Redis.now c + 1000 * default 3600 ttl)); [reflexivity|lia].
Qed.

Lemma cache_hit_is_truthy_witness :
  exists text,
    getFromRedis (Redis.elapse 0 (storeToRedis empty_redis "flag" (JStr "") None))
      "flag" (fun v => v)
    = Return (JStr text)
    /\ text <> "".
Proof.
  apply (cache_hit_is_truthy empty_redis "flag" (JStr "") None 0 (fun v => v)).
  - reflexivity.
  - simpl. lia.
Defined.

(** ** Passwords, further *)

(** Two hashes made with different salts differ, whatever the cipher does:
    hashing one password twice gives two hashes, each of which the password
    is accepted for. *)
Theorem salted_hashes_differ (digest : Z -> string -> string -> string)
    (drawn drawn' : Bcrypt.drawn_salt) (P : string) (C : option Z) (h h' : string) :
  Bcrypt.text drawn <> Bcrypt.text drawn' ->
  hashPassword digest drawn P C = Return h ->
  hashPassword digest drawn' P C = Return h' ->
  h <> h'
  /\ comparePassword digest P h = true
  /\ comparePassword digest P h' = true.
Proof.
  intros Hsalts Hh Hh'.
  split; [|split].
  - rewrite hashPassword_returns in Hh, Hh'.
    injection Hh as <-. injection Hh' as <-. intros Heq.
    do 3 apply append_inv_l in Heq.
    apply (f_equal (str_take 22)) in Heq.
    rewrite <- (Bcrypt.text_length drawn) in Heq at 1.
    rewrite <- (Bcrypt.text_length drawn') in Heq.
    rewrite !str_take_append in Heq. contradiction.
  - by apply (comparePassword_digests digest drawn P P C h Hh).
  - by apply (comparePassword_digests digest drawn' P P C h' Hh').
Qed.

Lemma salted_hashes_differ_witness :
  exists h h',
    hashPassword a_digest a_salt "secret" None = Return h
    /\ hashPassword a_digest another_salt "secret" None = Return h'
    /\ h <> h'
    /\ comparePassword a_digest "secret" h = true
    /\ comparePassword a_digest "secret" h' = true.
Proof.
  eexists. eexists. split; [reflexivity|]. split; [reflexivity|].
  apply (salted_hashes_differ a_digest a_salt another_salt "secret" None).
  - discriminate.
  - reflexivity.
  - reflexivity.
Defined.

(** No password is accepted for a stored value of fewer than 29
    characters, which cannot be a hash: in particular a short password
    stored as it is does not match itself.  [comparePassword] answers
    [false] there; it does not throw. *)
Theorem comparePassword_against_no_hash (digest : Z -> string -> string -> string)
    (P stored : string) :
  (String.length stored < 29)%nat ->
  comparePassword digest P stored = false.
Proof.
  intros Hshort.
  unfold comparePassword, Bcrypt.compareSync, Bcrypt.hashpw, Bcrypt.read_setting.
  destruct (Nat.leb_spec 29 (String.length stored)) as [Hlong|_]; [lia|].
  by rewrite andb_false_r.
Qed.

Lemma comparePassword_against_no_hash_witness :
  comparePassword a_digest "secret" "secret" = false.
Proof.
  apply (comparePassword_against_no_hash a_digest "secret" "secret").
  simpl. lia.
Defined.

(** ** Tokens, further *)

(** Whether [verifyToken] gets as far as the claims does not depend on the
    instant. *)
Lemma verifyToken_shape
    (jws_sign : string -> string -> Jwt.header -> json -> string)
    (env : process_env) (t : Jwt.token) :
  (exists e, forall clock, verifyToken jws_sign env clock t = Throw e)
  \/ (exists p,
        t = Jwt.Compact (match t with Jwt.Compact h _ _ => h | _ => jwt_header end) p
              (match t with Jwt.Compact _ _ s => s | _ => "" end)
        /\ forall clock, verifyToken jws_sign env clock t = Jwt.check_claims clock p).
Proof.
  unfold verifyToken, Jwt.verify.
  destruct t as [text|h p s]; [left; eexists; reflexivity|].
  destruct (Jwt.usable (SECRET_KEY env)) as [k|]; destruct s as [|c s];
    try (left; eexists; reflexivity).
  - destruct (bool_decide (Jwt.alg h ∈ Jwt.hmac_algorithms));
      [|left; eexists; reflexivity].
    destruct (String.eqb (String c s) (jws_sign (Jwt.alg h) k h p));
      [|left; eexists; reflexivity].
    right. exists p. split; reflexivity.
  - destruct (String.eqb (Jwt.alg h) "none");
      [|left; eexists; reflexivity].
    right. exists p. split; reflexivity.
Qed.

Lemma check_claims_window (t1 t2 clock : Z) (p x1 x2 : json) :
  Jwt.check_claims t1 p = Return x1 ->
  Jwt.check_claims t2 p = Return x2 ->
  t1 <= clock <= t2 ->
  Jwt.check_claims clock p = Return p /\ x1 = p /\ x2 = p.
Proof.
  unfold Jwt.check_claims. intros H1 H2 Hbetween.
  destruct (Jwt.claim "nbf" p) as [[| |nbf| | |]|]; try discriminate;
    destruct (Jwt.claim "exp" p) as [[| |exp| | |]|]; try discriminate;
    repeat match goal with
           | H : context [(?a <? ?b)%Z] |- _ => destruct (Z.ltb_spec a b); try discriminate
           | H : context [(?a <=? ?b)%Z] |- _ => destruct (Z.leb_spec a b); try discriminate
           end;
    repeat match goal with
           | |- context [(?a <? ?b)%Z] => destruct (Z.ltb_spec a b); try lia
           | |- context [(?a <=? ?b)%Z] => destruct (Z.leb_spec a b); try lia
           end;
    injection H1 as <-; injection H2 as <-; done.
Qed.

Lemma check_claims_stays_expired (clock later exp : Z) (m : string) (p : json) :
  Jwt.check_claims clock p = Throw (TokenExpiredError m exp) ->
  clock <= later ->
  Jwt.check_claims later p = Throw (TokenExpiredError m exp).
Proof.
  unfold Jwt.check_claims. intros H Hlater.
  destruct (Jwt.claim "nbf" p) as [[| |nbf| | |]|]; try discriminate;
    destruct (Jwt.claim "exp" p) as [[| |e| | |]|]; try discriminate;
    repeat match goal with
           | H : context [(?a <? ?b)%Z] |- _ => destruct (Z.ltb_spec a b); try discriminate
           | H : context [(?a <=? ?b)%Z] |- _ => destruct (Z.leb_spec a b); try discriminate
           end;
    repeat match goal with
           | |- context [(?a <? ?b)%Z] => destruct (Z.ltb_spec a b); try lia
           | |- context [(?a <=? ?b)%Z] => destruct (Z.leb_spec a b); try lia
           end;
    exact H.
Qed.

(** The instants a token is accepted at form an interval: a token accepted
    at two instants is accepted at every instant between them, and each
    time what is returned is the payload the token carries. *)
Theorem token_validity_is_an_interval
    (jws_sign : string -> string -> Jwt.header -> json -> string)
    (env : process_env) (t : Jwt.token) (t1 t2 clock : Z) (p1 p2 : json) :
  verifyToken jws_sign env t1 t = Return p1 ->
  verifyToken jws_sign env t2 t = Return p2 ->
  t1 <= clock <= t2 ->
  verifyToken jws_sign env clock t = Return p1
  /\ p1 = p2
  /\ exists h s, t = Jwt.Compact h p1 s.
Proof.
  intros H1 H2 Hbetween.
  destruct (verifyToken_shape jws_sign env t) as [[e He]|(p & Ht & Hp)].
  - rewrite He in H1. discriminate.
  - rewrite Hp in H1, H2 |- *.
    destruct (check_claims_window t1 t2 clock p p1 p2 H1 H2 Hbetween)
      as (Hclock & -> & ->).
    split; [exact Hclock|]. split; [reflexivity|]. eauto.
Qed.

Lemma token_validity_is_an_interval_witness :
  verifyToken a_signature (environment "production") 500 a_token
  = Return (with_claims 0 1000 [("id", JNum 1)])
  /\ with_claims 0 1000 [("id", JNum 1)] = with_claims 0 1000 [("id", JNum 1)]
  /\ exists h s, a_token = Jwt.Compact h (with_claims 0 1000 [("id", JNum 1)]) s.
Proof.
  apply (token_validity_is_an_interval a_signature (environment "production") a_token
           0 999 500 (with_claims 0 1000 [("id", JNum 1)])
           (with_claims 0 1000 [("id", JNum 1)])).
  - reflexivity.
  - reflexivity.
  - lia.
Defined.

(** Expiry is final: a token rejected as expired is rejected as expired,
    with the same error, at every later instant. *)
Theorem expired_token_stays_expired
    (jws_sign : string -> string -> Jwt.header -> json -> string)
    (env : process_env) (t : Jwt.token) (clock later exp : Z) (m : string) :
  verifyToken jws_sign env clock t = Throw (TokenExpiredError m exp) ->
  clock <= later ->
  verifyToken jws_sign env later t = Throw (TokenExpiredError m exp).
Proof.
  intros Hexpired Hlater.
  destruct (verifyToken_shape jws_sign env t) as [[e He]|(p & _ & Hp)].
  - rewrite He in Hexpired |- *. exact Hexpired.
  - rewrite Hp in Hexpired |- *.
    exact (check_claims_stays_expired clock later exp m p Hexpired Hlater).
Qed.

Lemma expired_token_stays_expired_witness :
  verifyToken a_signature (environment "production") 5000 a_token
  = Throw (TokenExpiredError "jwt expired" 1000).
Proof.
  apply (expired_token_stays_expired a_signature (environment "production") a_token
           1000 5000 1000 "jwt expired").
  - reflexivity.
  - lia.
Defined.

Lemma accepted_token_expires_witness :
  verifyToken a_signature (environment "production") 1000 a_token
  = Throw (TokenExpiredError "jwt expired" 1000).
Proof.
  apply (accepted_token_expires a_signature (environment "production") 999 1000 1000
           "s3cret" a_token (with_claims 0 1000 [("id", JNum 1)])).
  - reflexivity.
  - reflexivity.
  - reflexivity.
  - lia.
  - lia.
Defined.

Lemma altered_signature_is_rejected_witness :
  exists m,
    verifyToken a_signature (environment "production") 500 a_forged_token
    = Throw (JsonWebTokenError m).
Proof.
  apply (altered_signature_is_rejected a_signature (environment "production") 500
           "s3cret" jwt_header (with_claims 0 1000 [("id", JNum 1)])
           (a_signature "HS256" "s3cret" jwt_header (with_claims 0 1000 [("id", JNum 1)]))
           "forged" (with_claims 0 1000 [("id", JNum 1)])).
  - reflexivity.
  - reflexivity.
  - discriminate.
Defined.

(** Without a secret (unset, or empty) no token is issued, whatever the
    payload, and no token that carries a signature is accepted. *)
Theorem no_secret_no_tokens
    (jws_sign : string -> string -> Jwt.header -> json -> string)
    (ms : string -> option Z) (env : process_env) (clock : Z) :
  Jwt.usable (SECRET_KEY env) = None ->
  (forall payload expiresIn,
     generateToken jws_sign ms env clock payload expiresIn
     = Throw (Error "secretOrPrivateKey must have a value"))
  /\ (forall h p s,
        s <> "" ->
        verifyToken jws_sign env clock (Jwt.Compact h p s)
        = Throw (JsonWebTokenError "secret or public key must be provided")).
Proof.
  intros Hnone. split.
  - intros payload expiresIn. unfold generateToken, Jwt.sign. by rewrite Hnone.
  - intros h p s Hs. unfold verifyToken, Jwt.verify. rewrite Hnone.
    by destruct s.
Qed.

Lemma no_secret_no_tokens_witness :
  generateToken a_signature thirty_days no_secret 0 (JObj [("id", JNum 1)]) None
  = Throw (Error "secretOrPrivateKey must have a value")
  /\ verifyToken a_signature no_secret 500 a_token
     = Throw (JsonWebTokenError "secret or public key must be provided").
Proof.
  split.
  - apply (proj1 (no_secret_no_tokens a_signature thirty_days no_secret 0 eq_refl)).
  - apply (proj2 (no_secret_no_tokens a_signature thirty_days no_secret 500 eq_refl)).
    discriminate.
Defined.

(** What a token [generateToken] returns is made of. *)
Lemma generateToken_returns
    (jws_sign : string -> string -> Jwt.header -> json -> string)
    (ms : string -> option Z) (env : process_env) (clock : Z)
    (payload : json) (expiresIn : option Jwt.span) (t : Jwt.token) :
  generateToken jws_sign ms env clock payload expiresIn = Return t ->
  exists k o iat exp,
    Jwt.usable (SECRET_KEY env) = Some k
    /\ payload = JObj o
    /\ Jwt.number_or_absent (Obj.get "nbf" o) = true
    /\ (Obj.get "iat" o = None -> iat = clock)
    /\ Jwt.timespan ms (default (Jwt.Text "30days") expiresIn) iat = Some exp
    /\ t = Jwt.Compact jwt_header (with_claims iat exp o)
             (jws_sign "HS256" k jwt_header (with_claims iat exp o)).
Proof.
  unfold generateToken, Jwt.sign. intros H.
  destruct (Jwt.usable (SECRET_KEY env)) as [k|]; [|discriminate].
  destruct payload as [| | | | |o]; try discriminate.
  destruct (Jwt.number_or_absent (Obj.get "iat" o)); [|discriminate].
  destruct (Jwt.number_or_absent (Obj.get "exp" o)); [|discriminate].
  destruct (Jwt.number_or_absent (Obj.get "nbf" o)) eqn:Hnbf; [|discriminate].
  simpl in H.
  destruct (bool_decide (is_Some (Obj.get "exp" o))); [discriminate|].
  destruct (Jwt.valid_span (default (Jwt.Text "30days") expiresIn)); [|discriminate].
  simpl in H.
  match type of H with
  | match Jwt.timespan _ _ ?stamp with _ => _ end = _ =>
      destruct (Jwt.timespan ms (default (Jwt.Text "30days") expiresIn) stamp)
        as [exp|] eqn:Hspan; [|discriminate];
      exists k, o, stamp, exp
  end.
  injection H as <-. repeat split; try assumption.
  intros Hiat. by rewrite Hiat.
Qed.

(** A token [generateToken] returned is never rejected as invalid under
    the secret it was signed with: [verifyToken] accepts it, or finds it
    not yet active or expired. *)
Theorem issued_token_is_never_invalid
    (jws_sign : string -> string -> Jwt.header -> json -> string)
    (ms : string -> option Z) (env : process_env) (clock later : Z)
    (payload : json) (expiresIn : option Jwt.span) (t : Jwt.token) :
  (forall k h p, jws_sign "HS256" k h p <> "") ->
  generateToken jws_sign ms env clock payload expiresIn = Return t ->
  (exists p, verifyToken jws_sign env later t = Return p)
  \/ (exists m date, verifyToken jws_sign env later t = Throw (NotBeforeError m date))
  \/ (exists m exp, verifyToken jws_sign env later t = Throw (TokenExpiredError m exp)).
Proof.
  intros Hsigned Hissued.
  destruct (generateToken_returns _ _ _ _ _ _ _ Hissued)
    as (k & o & iat & exp & Hk & -> & Hnbf & _ & _ & ->).
  rewrite (verify_authentic jws_sign env later k);
    [|exact Hk|split; [apply Hsigned|split; [|reflexivity]]].
  - unfold Jwt.check_claims.
    assert (Jwt.claim "nbf" (with_claims iat exp o) = Obj.get "nbf" o) as ->.
    { unfold with_claims, Jwt.claim. by rewrite !Obj_get_set_ne. }
    assert (Jwt.claim "exp" (with_claims iat exp o) = Some (JNum exp)) as ->
      by apply Obj_get_set_eq.
    destruct (Obj.get "nbf" o) as [[| |nbf| | |]|]; try discriminate.
    + destruct (later <? nbf)%Z; [right; left; eauto|].
      destruct (exp <=? later)%Z; [right; right; eauto|left; eauto].
    + destruct (exp <=? later)%Z; [right; right; eauto|left; eauto].
  - apply list_elem_of_In. left. reflexivity.
Qed.

Lemma issued_token_is_never_invalid_witness :
  (exists p,
     verifyToken a_signature (environment "production") 5000 a_token = Return p)
  \/ (exists m date,
        verifyToken a_signature (environment "production") 5000 a_token
        = Throw (NotBeforeError m date))
  \/ (exists m exp,
        verifyToken a_signature (environment "production") 5000 a_token
        = Throw (TokenExpiredError m exp)).
Proof.
  apply (issued_token_is_never_invalid a_signature thirty_days
           (environment "production") 0 5000 (JObj [("id", JNum 1)])
           (Some (Jwt.Seconds 1000)) a_token).
  - intros k h p. discriminate.
  - reflexivity.
Defined.

(** A token issued for no time at all never verifies: with [expiresIn] a
    number of seconds that is zero or less, or a text that stands for less
    than a second (such as [1ms]), the expiry is not after the instant of
    issuance, and [verifyToken] does not accept the token then or later. *)
Theorem short_lived_token_never_verifies
    (jws_sign : string -> string -> Jwt.header -> json -> string)
    (ms : string -> option Z) (env : process_env) (clock later : Z)
    (o : list (string * json)) (expiresIn : Jwt.span) (t : Jwt.token) (p : json) :
  generateToken jws_sign ms env clock (JObj o) (Some expiresIn) = Return t ->
  Obj.get "iat" o = None ->
  match expiresIn with
  | Jwt.Seconds n => n <= 0
  | Jwt.Text s => exists d, ms s = Some d /\ d < 1000
  end ->
  clock <= later ->
  verifyToken jws_sign env later t <> Return p.
Proof.
  intros Hissued Hiat Hshort Hlater Haccepted.
  destruct (generateToken_returns _ _ _ _ _ _ _ Hissued)
    as (k & o' & iat & exp & _ & [= <-] & _ & Hstamp & Hspan & ->).
  rewrite (Hstamp Hiat) in *. clear Hstamp.
  assert (exp <= clock) as Hexp.
  { destruct expiresIn as [s|n]; simpl in Hspan.
    - destruct Hshort as (d & Hd & Hlt). rewrite Hd in Hspan. injection Hspan as <-.
      assert (d / 1000 < 1) by (apply Z.div_lt_upper_bound; lia). lia.
    - injection Hspan as <-. lia. }
  destruct (verifyToken_shape jws_sign env
              (Jwt.Compact jwt_header (with_claims clock exp o)
                 (jws_sign "HS256" k jwt_header (with_claims clock exp o))))
    as [[e He]|(p' & Ht & Hp)].
  - rewrite He in Haccepted. discriminate.
  - rewrite Hp in Haccepted. injection Ht as <-.
    unfold Jwt.check_claims in Haccepted.
    assert (Jwt.claim "exp" (with_claims clock exp o) = Some (JNum exp)) as Hclaim
      by apply Obj_get_set_eq.
    rewrite Hclaim in Haccepted.
    destruct (Z.leb_spec exp later); [|lia].
    destruct (Jwt.claim "nbf" (with_claims clock exp o)) as [[| |nbf| | |]|];
      try discriminate.
    destruct (later <? nbf)%Z; discriminate.
Qed.

Lemma short_lived_token_never_verifies_witness :
  exists t,
    generateToken a_signature short_spans (environment "production") 1000
      (JObj [("id", JNum 1)]) (Some (Jwt.Text "1ms"))
    = Return t
    /\ verifyToken a_signature (environment "production") 1000 t
       <> Return (with_claims 1000 1000 [("id", JNum 1)]).
Proof.
  eexists. split; [reflexivity|].
  apply (short_lived_token_never_verifies a_signature short_spans
           (environment "production") 1000 1000 [("id", JNum 1)] (Jwt.Text "1ms")).
  - reflexivity.
  - reflexivity.
  - exists 1. split; [reflexivity|lia].
  - lia.
Defined.
